(** * monsql/db.py: the [Database] session

    A shallow embedding of the [Database] class of [monsql/db.py] and
    the properties of its handle cache, its schema operations and its
    connection lifecycle.

    The class talks to a DB-API connection ([self.__db]) and leaves three
    methods to its subclasses ([get_table_obj], [list_tables],
    [truncate_table]).  Neither the driver nor a subclass is part of
    [db.py]; they are the fields of the [Backend] class below.  Methods
    are computations in a state and exception monad: a Python exception
    leaves every mutation made before it in place, so a raising
    computation still returns the state it reached. *)

From Stdlib Require Import String Ascii.
From stdpp Require Import gmap strings list.

Local Open Scope string_scope.
Local Open Scope list_scope.

(** ** Python values used by the class *)

(** [str.lower()] on a byte string: the letters [A]..[Z] move to
    [a]..[z], every other byte stays. *)
Definition lower_char (c : ascii) : ascii :=
  let n := nat_of_ascii c in
  if (65 <=? n)%nat && (n <=? 90)%nat then ascii_of_nat (n + 32) else c.

Fixpoint lower (s : string) : string :=
  match s with
  | EmptyString => EmptyString
  | String c r => String (lower_char c) (lower r)
  end.

(** [sep.join(l)] *)
Definition join (sep : string) (l : list string) : string :=
  String.concat sep l.

(** [needle in s], the test for a piece of text inside a statement. *)
Fixpoint starts_with (p s : string) : bool :=
  match p with
  | EmptyString => true
  | String a p' =>
      match s with
      | EmptyString => false
      | String b s' => Ascii.eqb a b && starts_with p' s'
      end
  end.

Fixpoint contains (needle s : string) : bool :=
  starts_with needle s ||
  match s with
  | EmptyString => false
  | String _ r => contains needle r
  end.

Fixpoint has_char (c : ascii) (s : string) : bool :=
  match s with
  | EmptyString => false
  | String a r => Ascii.eqb c a || has_char c r
  end.

(** Exceptions.  The class raises [MonSQLException(message)] itself;
    [KeyError] is what a failed dictionary subscript raises; whatever the
    connection or a subclass hook raises passes through as a
    [BackendError]. *)
Inductive exn :=
  | MonSQLException (msg : string)
  | KeyError (key : string)
  | BackendError (info : string).

Inductive result (A : Type) :=
  | Ok (a : A)
  | Raise (e : exn).
Arguments Ok {A} a.
Arguments Raise {A} e.

(** What a collaborator answers: a value, or an exception of its own. *)
Inductive answer (A : Type) :=
  | Done (a : A)
  | Fail (info : string).
Arguments Done {A} a.
Arguments Fail {A} info.

Definition of_answer {A} (a : answer A) : result A :=
  match a with
  | Done v => Ok v
  | Fail info => Raise (BackendError info)
  end.

(** A table handle is a Python object; [ref] is its identity ([is]
    compares these). *)
Definition ref := nat.

(** The calls the class makes on its connection and cursors, in the order
    it makes them.  [CallExecute c sql] is [execute(sql)] on cursor [c]. *)
Inductive call :=
  | CallCursor
  | CallExecute (cur : nat) (sql : string)
  | CallCommit
  | CallClose.

(** ** The collaborators

    [db_cursor], [cursor_execute], [db_commit] and [db_close] are the
    connection's [cursor()], [cursor.execute(sql)], [commit()] and
    [close()]: each may raise and each may change the connection.

    The three other fields are the methods [db.py] declares abstract.
    [list_tables] enumerates the tables of the connection's database; it
    is a query: it returns a list of names and leaves the connection as it
    is.  [get_table_obj] returns the handle of a table: it sees the
    connection and the objects built so far, may raise, and returns a
    handle and the objects built after it.  Nothing is assumed of it here;
    [builds_new_objects] below says that it constructs.  [truncate_table]
    empties a table and may raise.  The attribute [__table_map] is private
    to [Database] (its name is mangled), so no hook changes it. *)
Class Backend (Conn : Type) := {
  db_cursor : Conn → answer nat * Conn;
  cursor_execute : nat → string → Conn → answer unit * Conn;
  db_commit : Conn → answer unit * Conn;
  db_close : Conn → answer unit * Conn;
  list_tables : Conn → list string;
  get_table_obj : string → Conn → gset ref → answer ref * gset ref;
  truncate_table : string → Conn → answer unit * Conn
}.

(** ** The session

    The first four fields are the attributes [__init__] sets.  [calls] is
    the history of calls made on the connection, [objects] the handles
    built so far. *)
Record Database (Conn Mode : Type) := mkDatabase {
  db : Conn;
  cursor : nat;
  table_map : gmap string ref;
  mode : Mode;
  calls : list call;
  objects : gset ref
}.
Arguments mkDatabase {Conn Mode}.
Arguments db {Conn Mode}.
Arguments cursor {Conn Mode}.
Arguments table_map {Conn Mode}.
Arguments mode {Conn Mode}.
Arguments calls {Conn Mode}.
Arguments objects {Conn Mode}.

Section Session.
Context {Conn Mode : Type} `{!Backend Conn}.

Abbreviation State := (Database Conn Mode).

Definition M (A : Type) : Type := State → result A * State.

Definition ret {A} (a : A) : M A := λ s, (Ok a, s).

Definition bind {A B} (m : M A) (f : A → M B) : M B := λ s,
  match m s with
  | (Ok a, s') => f a s'
  | (Raise e, s') => (Raise e, s')
  end.

Definition raise {A} (e : exn) : M A := λ s, (Raise e, s).

Definition gets {A} (f : State → A) : M A := λ s, (Ok (f s), s).

Notation "'let!' x ':=' c 'in' k" := (bind c (λ x, k))
  (at level 10, x name, c at level 100, k at level 200).
Notation "c ';;' k" := (bind c (λ _, k))
  (at level 100, k at level 200, right associativity).

(** One call on the connection: it is recorded, the connection moves to
    the state the driver leaves it in, and the driver's answer (a value
    or an exception) is the answer of the call. *)
Definition on_connection {A} (c : call) (f : Conn → answer A * Conn) : M A :=
  λ s,
  let '(r, d) := f (db s) in
  (of_answer r, mkDatabase d (cursor s) (table_map s) (mode s) (calls s ++ [c]) (objects s)).

Definition set_table_map (m : gmap string ref) : M unit := λ s,
  (Ok tt, mkDatabase (db s) (cursor s) m (mode s) (calls s) (objects s)).

(** [self.__db.cursor()] *)
Definition new_cursor : M nat := on_connection CallCursor db_cursor.

(** [c.execute(sql)] *)
Definition execute_on (c : nat) (sql : string) : M unit :=
  on_connection (CallExecute c sql) (cursor_execute c sql).

(** [self.__cursor.execute(sql)] *)
Definition execute (sql : string) : M unit :=
  let! c := gets cursor in execute_on c sql.

(** [self.get_table_obj(name)] *)
Definition call_get_table_obj (name : string) : M ref := λ s,
  let '(r, o) := get_table_obj name (db s) (objects s) in
  (of_answer r, mkDatabase (db s) (cursor s) (table_map s) (mode s) (calls s) o).

(** [self.list_tables()] *)
Definition call_list_tables : M (list string) := gets (λ s, list_tables (db s)).

(** [self.truncate_table(tablename)] *)
Definition call_truncate_table (tablename : string) : M unit := λ s,
  let '(r, d) := truncate_table tablename (db s) in
  (of_answer r, mkDatabase d (cursor s) (table_map s) (mode s) (calls s) (objects s)).

(** [Database.__init__(db, mode)], in a world where [cs] has already been
    called on the connection and [objs] have been built. *)
Definition init (d : Conn) (m : Mode) (cs : list call) (objs : gset ref)
  : result State :=
  match db_cursor d with
  | (Done c, d') => Ok (mkDatabase d' c ∅ m (cs ++ [CallCursor]) objs)
  | (Fail info, _) => Raise (BackendError info)
  end.

(** [Database.__ensure_table_obj] *)
Definition ensure_table_obj (name : string) : M unit :=
  let! m := gets table_map in
  if bool_decide (is_Some (m !! name)) then ret tt
  else
    let! t := call_get_table_obj name in
    let! m := gets table_map in
    set_table_map (<[name := t]> m).

(** [Database.get] *)
Definition get (name : string) : M ref :=
  ensure_table_obj name;;
  let! m := gets table_map in
  match m !! name with
  | Some t => ret t
  | None => raise (KeyError name)
  end.

(** [Database.close] *)
Definition close : M unit :=
  on_connection CallClose db_close;;
  set_table_map ∅.

(** [Database.commit] *)
Definition commit : M unit := on_connection CallCommit db_commit.

(** [Database.set_foreign_key_check] *)
Definition set_foreign_key_check (to_check : bool) : M unit :=
  if to_check then
    let! c := new_cursor in execute_on c "SET foreign_key_checks = 1;"
  else
    let! c := new_cursor in execute_on c "SET foreign_key_checks = 0;".

(** [Database.is_table_existed] *)
Definition is_table_existed (tablename : string) : M bool :=
  let! all_tablenames := call_list_tables in
  let tablename := lower tablename in
  if bool_decide (tablename ∈ all_tablenames) then ret true else ret false.

(** [Database.drop_table].  [and] does not evaluate its right operand
    when [silent] is true. *)
Definition drop_table (tablename : string) (silent : bool) : M unit :=
  let! missing :=
    (if negb silent
     then let! existed := is_table_existed tablename in ret (negb existed)
     else ret false) in
  (if (missing : bool)
   then raise (MonSQLException ("TABLE " +:+ tablename +:+ " DOES NOT EXIST"))
   else ret tt);;
  execute ("DROP TABLE IF EXISTS " +:+ tablename);;
  commit.

(** The statement [create_table] builds once the primary key is known to
    be absent or non-empty. *)
Definition columns_specs (columns : list string)
    (primary_key : option (list string)) : string :=
  match primary_key with
  | None => join "," columns
  | Some pk => join "," columns +:+ ",PRIMARY KEY(" +:+ join "," pk +:+ ")"
  end.

Definition create_sql (tablename : string) (columns : list string)
    (primary_key : option (list string)) : string :=
  "CREATE TABLE " +:+ tablename +:+ "(" +:+ columns_specs columns primary_key +:+ ")".

(** [Database.create_table] *)
Definition create_table (tablename : string) (columns : list string)
    (primary_key : option (list string)) (force_recreate : bool) : M unit :=
  let! existed := is_table_existed tablename in
  (if (existed : bool) then
     if force_recreate then drop_table tablename false
     else raise (MonSQLException "TABLE ALREADY EXISTS")
   else ret tt);;
  let specs := join "," columns in
  let! specs :=
    match primary_key with
    | Some pk =>
        if (length pk =? 0)%nat
        then raise (MonSQLException "PRIMARY KEY MUST AT LEAST CONTAINS ONE COLUMN")
        else ret (specs +:+ ",PRIMARY KEY(" +:+ join "," pk +:+ ")")
    | None => ret specs
    end in
  let sql := "CREATE TABLE " +:+ tablename +:+ "(" +:+ specs +:+ ")" in
  execute sql;;
  commit.

(** *** Sequences of calls on a session

    A client calls the public methods one after the other and goes on
    after an exception; [run_ops] is the session after such a sequence. *)
Inductive op :=
  | Get (name : string)
  | Close
  | Commit
  | SetForeignKeyCheck (to_check : bool)
  | ListTables
  | TruncateTable (tablename : string)
  | IsTableExisted (tablename : string)
  | CreateTable (tablename : string) (columns : list string)
      (primary_key : option (list string)) (force_recreate : bool)
  | DropTable (tablename : string) (silent : bool).

Definition after {A} (m : M A) (s : State) : State := (m s).2.

Definition step (s : State) (o : op) : State :=
  match o with
  | Get name => after (get name) s
  | Close => after close s
  | Commit => after commit s
  | SetForeignKeyCheck b => after (set_foreign_key_check b) s
  | ListTables => after call_list_tables s
  | TruncateTable t => after (call_truncate_table t) s
  | IsTableExisted t => after (is_table_existed t) s
  | CreateTable t cols pk force => after (create_table t cols pk force) s
  | DropTable t silent => after (drop_table t silent) s
  end.

Definition run_ops (os : list op) (s : State) : State := foldl step s os.

(** *** What the connection is asked to accept

    [accepts cs d] is the connection state after the calls [cs], made in
    this order from [d], when none of them raises. *)
Definition perform (c : call) (d : Conn) : answer unit * Conn :=
  match c with
  | CallCursor =>
      match db_cursor d with
      | (Done _, d') => (Done tt, d')
      | (Fail info, d') => (Fail info, d')
      end
  | CallExecute cur sql => cursor_execute cur sql d
  | CallCommit => db_commit d
  | CallClose => db_close d
  end.

Fixpoint accepts (cs : list call) (d : Conn) : option Conn :=
  match cs with
  | [] => Some d
  | c :: cs' =>
      match perform c d with
      | (Done _, d') => accepts cs' d'
      | (Fail _, _) => None
      end
  end.

(** Every handle the cache holds is an object that has been built. *)
Definition cache_built (s : State) : Prop :=
  ∀ name h, table_map s !! name = Some h → h ∈ objects s.

(** The subclass hook builds a new object at every call that returns
    one, and no call of it loses an object. *)
Definition builds_new_objects : Prop :=
  ∀ name d objs r objs',
    get_table_obj name d objs = (r, objs') →
    (objs ⊆ objs') ∧ (∀ h, r = Done h → (h ∉ objs) ∧ (h ∈ objs')).

(** [retired h s]: the handle [h] is built and the cache does not hold
    it. *)
Definition retired (h : ref) (s : State) : Prop :=
  h ∈ objects s ∧ ∀ n, table_map s !! n ≠ Some h.

(** [along R f m]: the computation [m] moves the component [f] of the
    session along the relation [R], whether it returns or raises. *)
Definition along {A B} (R : relation B) (f : State → B) (m : M A) : Prop :=
  ∀ s, R (f s) (f (m s).2).

(** [keeps f m]: the computation [m] leaves the component [f] of the
    session as it is, whether it returns or raises. *)
Definition keeps {A B} (f : State → B) (m : M A) : Prop :=
  ∀ s, f (m s).2 = f s.

End Session.

(** ** A backend to run the class on

    The connection state is the number of cursors opened and the list of
    the tables of the database, in lower case.  [DROP TABLE IF EXISTS t]
    removes [t], [CREATE TABLE t(..)] adds [t] and is refused when [t] is
    there, every other statement is accepted and changes nothing.
    [commit()] and [close()] are always accepted. *)
Module Memory.

Record conn := mkConn {
  cursors : nat;
  tables : list string
}.

Fixpoint strip_prefix (p s : string) : option string :=
  match p with
  | EmptyString => Some s
  | String a p' =>
      match s with
      | EmptyString => None
      | String b s' => if Ascii.eqb a b then strip_prefix p' s' else None
      end
  end.

Fixpoint before_paren (s : string) : string :=
  match s with
  | EmptyString => EmptyString
  | String c r => if Ascii.eqb c "(" then EmptyString else String c (before_paren r)
  end.

Definition run_statement (sql : string) (d : conn) : answer unit * conn :=
  match strip_prefix "DROP TABLE IF EXISTS " sql with
  | Some t => (Done tt, mkConn (cursors d) (filter (λ x, x ≠ lower t) (tables d)))
  | None =>
      match strip_prefix "CREATE TABLE " sql with
      | Some rest =>
          let t := lower (before_paren rest) in
          if bool_decide (t ∈ tables d)
          then (Fail "table exists", d)
          else (Done tt, mkConn (cursors d) (tables d ++ [t]))
      | None => (Done tt, d)
      end
  end.

Definition new_object (objs : gset ref) : ref := fresh objs.

#[global] Instance backend : Backend conn := {|
  db_cursor d := (Done (cursors d), mkConn (S (cursors d)) (tables d));
  cursor_execute _ sql d := run_statement sql d;
  db_commit d := (Done tt, d);
  db_close d := (Done tt, d);
  list_tables d := tables d;
  get_table_obj _ _ objs := (Done (new_object objs), {[new_object objs]} ∪ objs);
  truncate_table _ d := (Done tt, d)
|}.

(** A session on a database that holds the table [users], as
    [__init__] leaves it. *)
Definition session : Database conn nat :=
  mkDatabase (mkConn 1 ["users"]) 0 ∅ 0 [CallCursor] ∅.

(** Some calls a client makes between two [get]. *)
Definition traffic : list op :=
  [Get "orders";
   CreateTable "orders" ["id INT"; "total INT"] (Some ["id"]) false;
   Commit;
   IsTableExisted "Orders";
   SetForeignKeyCheck false;
   TruncateTable "orders";
   DropTable "users" false;
   ListTables;
   Get "users"].

(** The session after a first [get('users')], and after the traffic and a
    [close()]. *)
Definition fetched : Database conn nat := after (get "users") session.

Definition closed : Database conn nat := after close (run_ops traffic fetched).

End Memory.

(** ** A connection that is lost

    Every call on the connection raises, no table is listed and no handle
    can be built. *)
Module Lost.

#[global] Instance backend : Backend unit := {|
  db_cursor d := (Fail "connection lost", d);
  cursor_execute _ _ d := (Fail "connection lost", d);
  db_commit d := (Fail "connection lost", d);
  db_close d := (Fail "connection lost", d);
  list_tables _ := [];
  get_table_obj _ _ objs := (Fail "connection lost", objs);
  truncate_table _ d := (Fail "connection lost", d)
|}.

(** A session that cached the handle of [users] before the connection
    went away. *)
Definition session : Database unit nat :=
  mkDatabase tt 0 {["users" := 7]} 0 [CallCursor] {[7]}.

End Lost.

(** * Properties *)

Lemma lower_char_idem c : lower_char (lower_char c) = lower_char c.
Proof. destruct c as [[] [] [] [] [] [] [] []]; reflexivity. Qed.

Lemma lower_idem s : lower (lower s) = lower s.
Proof. induction s as [|c s IH]; simpl; [done|]. by rewrite lower_char_idem, IH. Qed.

(** ** Text inside a statement *)

Lemma append_cons x (a b : string) : String x a +:+ b = String x (a +:+ b).
Proof. reflexivity. Qed.

Lemma append_assoc (a b c : string) : (a +:+ b) +:+ c = a +:+ b +:+ c.
Proof.
  induction a as [|x a IH]; [done|]. rewrite !append_cons. by f_equal.
Qed.

Lemma starts_with_app_sep c K u b :
  has_char c K = false →
  starts_with K (u +:+ String c b) = starts_with K u.
Proof.
  revert u. induction K as [|k K IH]; intros u Hc; [done|].
  simpl in Hc. apply orb_false_elim in Hc as [Hk HK].
  destruct u as [|x u].
  - change ("" +:+ String c b) with (String c b). simpl.
    rewrite Ascii.eqb_sym in Hk. by rewrite Hk.
  - rewrite append_cons. simpl. by rewrite IH.
Qed.

(** A separator that is not a character of the needle cuts the search in
    two. *)
Lemma contains_app_sep c K a b :
  K ≠ "" →
  has_char c K = false →
  contains K (a +:+ String c b) = contains K a || contains K b.
Proof.
  intros HK Hc. induction a as [|x a IH].
  - change ("" +:+ String c b) with (String c b). simpl.
    rewrite (starts_with_app_sep c K "" b Hc
               : starts_with K (String c b) = starts_with K "").
    by destruct K.
  - rewrite append_cons. simpl. rewrite <- append_cons.
    rewrite starts_with_app_sep by done. rewrite IH.
    by rewrite orb_assoc.
Qed.

Lemma contains_join K cols :
  K ≠ "" →
  has_char "," K = false →
  Forall (λ c, contains K c = false) cols →
  contains K (join "," cols) = false.
Proof.
  intros HK Hc Hcols. induction Hcols as [|x cols Hx Hcols IH].
  - by destruct K.
  - destruct cols as [|y cols]; [done|].
    change (join "," (x :: y :: cols)) with (x +:+ String "," (join "," (y :: cols))).
    rewrite contains_app_sep by done. by rewrite Hx, IH.
Qed.

Lemma contains_app_l K a b : contains K b = true → contains K (a +:+ b) = true.
Proof.
  intros Hb. induction a as [|x a IH]; [done|].
  rewrite append_cons. simpl. rewrite IH. apply orb_true_r.
Qed.

(** The statement without a primary key mentions [PRIMARY KEY] only if
    the table name or a column specification does. *)
Lemma create_sql_no_primary_key n cols :
  contains "PRIMARY KEY" n = false →
  Forall (λ c, contains "PRIMARY KEY" c = false) cols →
  contains "PRIMARY KEY"
    ("CREATE TABLE " +:+ n +:+ "(" +:+ join "," cols +:+ ")") = false.
Proof.
  intros Hn Hcols.
  change (contains "PRIMARY KEY" (n +:+ String "(" (join "," cols +:+ String ")" ""))
          = false).
  rewrite contains_app_sep by done.
  rewrite contains_app_sep by done.
  rewrite Hn, contains_join by done. done.
Qed.

(** The statement with a primary key does mention it. *)
Lemma create_sql_primary_key n cols pk :
  contains "PRIMARY KEY"
    ("CREATE TABLE " +:+ n +:+ "(" +:+
     (join "," cols +:+ ",PRIMARY KEY(" +:+ join "," pk +:+ ")") +:+ ")") = true.
Proof.
  do 3 apply contains_app_l. rewrite append_assoc.
  apply contains_app_l. done.
Qed.

Section Properties.
Context {Conn Mode : Type} `{!Backend Conn}.

Abbreviation State := (Database Conn Mode).
Abbreviation the_cache := (@table_map Conn Mode).
Abbreviation the_objects := (@objects Conn Mode).
Implicit Types (s : State) (n name tablename : string) (h : ref).

(** ** The monad and the frame of each method *)

Ltac unfold_monad :=
  unfold execute, execute_on, new_cursor, commit, call_list_tables,
    call_truncate_table, call_get_table_obj, set_table_map, on_connection,
    bind, ret, raise, gets, after in *.

Lemma keeps_ret {A B} (f : State → B) (a : A) : keeps f (ret a).
Proof. done. Qed.

Lemma keeps_raise {A B} (f : State → B) e : keeps f (raise (A:=A) e).
Proof. done. Qed.

Lemma keeps_gets {A B} (f : State → B) (g : State → A) : keeps f (gets g).
Proof. done. Qed.

Lemma keeps_bind {A A' B} (f : State → B) (m : M A) (k : A → M A') :
  keeps f m → (∀ a, keeps f (k a)) → keeps f (bind m k).
Proof.
  intros Hm Hk s. unfold bind. specialize (Hm s).
  destruct (m s) as [[a|e] s1]; simpl in *; [|done].
  by rewrite Hk.
Qed.

Lemma keeps_if {A B} (f : State → B) (b : bool) (m1 m2 : M A) :
  keeps f m1 → keeps f m2 → keeps f (if b then m1 else m2).
Proof. by destruct b. Qed.

Lemma on_connection_table_map {A} c (g : Conn → answer A * Conn) :
  keeps the_cache (on_connection c g).
Proof. intros s. unfold on_connection. by destruct (g (db s)). Qed.

Lemma on_connection_objects {A} c (g : Conn → answer A * Conn) :
  keeps the_objects (on_connection c g).
Proof. intros s. unfold on_connection. by destruct (g (db s)). Qed.

Lemma truncate_table_map t : keeps the_cache (call_truncate_table t).
Proof. intros s. unfold call_truncate_table. by destruct (truncate_table t (db s)). Qed.

Lemma truncate_objects t : keeps the_objects (call_truncate_table t).
Proof. intros s. unfold call_truncate_table. by destruct (truncate_table t (db s)). Qed.

Create HintDb frame discriminated.
#[local] Hint Resolve keeps_ret keeps_raise keeps_gets keeps_if
  on_connection_table_map on_connection_objects truncate_table_map
  truncate_objects : frame.
#[local] Hint Extern 2 (keeps _ (bind _ _)) =>
  (apply keeps_bind; [|intros ?]) : frame.
#[local] Hint Extern 2 (keeps _ (match ?x with _ => _ end)) => destruct x : frame.

Lemma commit_table_map : keeps the_cache commit.
Proof. unfold commit. auto with frame. Qed.

Lemma commit_objects : keeps the_objects commit.
Proof. unfold commit. auto with frame. Qed.

Lemma execute_table_map sql : keeps the_cache (execute sql).
Proof. unfold execute, execute_on. auto with frame. Qed.

Lemma execute_objects sql : keeps the_objects (execute sql).
Proof. unfold execute, execute_on. auto with frame. Qed.

Lemma set_foreign_key_check_table_map b : keeps the_cache (set_foreign_key_check b).
Proof. unfold set_foreign_key_check, new_cursor, execute_on. auto 6 with frame. Qed.

Lemma set_foreign_key_check_objects b : keeps the_objects (set_foreign_key_check b).
Proof. unfold set_foreign_key_check, new_cursor, execute_on. auto 6 with frame. Qed.

Lemma is_table_existed_run n s :
  is_table_existed n s = (Ok (bool_decide (lower n ∈ list_tables (db s))), s).
Proof.
  unfold is_table_existed. unfold_monad. by case_bool_decide.
Qed.

Lemma is_table_existed_keeps {B} (f : State → B) n : keeps f (is_table_existed n).
Proof. intros s. by rewrite is_table_existed_run. Qed.

#[local] Hint Resolve commit_table_map commit_objects execute_table_map
  execute_objects is_table_existed_keeps : frame.

Lemma drop_table_table_map t silent : keeps the_cache (drop_table t silent).
Proof. unfold drop_table. auto 8 with frame. Qed.

Lemma drop_table_objects t silent : keeps the_objects (drop_table t silent).
Proof. unfold drop_table. auto 8 with frame. Qed.

#[local] Hint Resolve drop_table_table_map drop_table_objects : frame.

Lemma create_table_table_map t cols pk force :
  keeps the_cache (create_table t cols pk force).
Proof. unfold create_table. auto 10 with frame. Qed.

Lemma create_table_objects t cols pk force :
  keeps the_objects (create_table t cols pk force).
Proof. unfold create_table. auto 10 with frame. Qed.

(** ** What each method computes *)

Lemma get_run n s :
  get n s =
  match table_map s !! n with
  | Some h => (Ok h, s)
  | None =>
      match get_table_obj n (db s) (objects s) with
      | (Done h, o) =>
          (Ok h, mkDatabase (db s) (cursor s) (<[n := h]> (table_map s))
                   (mode s) (calls s) o)
      | (Fail info, o) =>
          (Raise (BackendError info),
           mkDatabase (db s) (cursor s) (table_map s) (mode s) (calls s) o)
      end
  end.
Proof.
  unfold get, ensure_table_obj. unfold_monad. simpl.
  destruct (table_map s !! n) as [h|] eqn:Hn; simpl.
  - by rewrite Hn.
  - destruct (get_table_obj n (db s) (objects s)) as [[h|info] o]; simpl; [|done].
    by rewrite lookup_insert_eq.
Qed.

Lemma execute_commit_run sql s :
  bind (execute sql) (λ _, commit) s =
  match cursor_execute (cursor s) sql (db s) with
  | (Done _, d) =>
      match db_commit d with
      | (r, d') =>
          (of_answer r,
           mkDatabase d' (cursor s) (table_map s) (mode s)
             (calls s ++ [CallExecute (cursor s) sql; CallCommit]) (objects s))
      end
  | (Fail info, d) =>
      (Raise (BackendError info),
       mkDatabase d (cursor s) (table_map s) (mode s)
         (calls s ++ [CallExecute (cursor s) sql]) (objects s))
  end.
Proof.
  unfold_monad. simpl.
  destruct (cursor_execute (cursor s) sql (db s)) as [[[]|info] d]; simpl; [|done].
  destruct (db_commit d) as [r d']. by rewrite <- app_assoc.
Qed.

Lemma drop_table_run t silent s :
  drop_table t silent s =
  if negb silent && negb (bool_decide (lower t ∈ list_tables (db s)))
  then (Raise (MonSQLException ("TABLE " +:+ t +:+ " DOES NOT EXIST")), s)
  else bind (execute ("DROP TABLE IF EXISTS " +:+ t)) (λ _, commit) s.
Proof.
  unfold drop_table. unfold bind at 1 2.
  destruct silent; simpl.
  - done.
  - unfold bind at 1. rewrite is_table_existed_run. unfold ret at 1.
    by destruct (bool_decide _).
Qed.

Lemma create_table_run t cols pk force s :
  create_table t cols pk force s =
  let existed := bool_decide (lower t ∈ list_tables (db s)) in
  if existed && negb force
  then (Raise (MonSQLException "TABLE ALREADY EXISTS"), s)
  else
    match (if existed then drop_table t false s else (Ok tt, s)) with
    | (Ok _, s1) =>
        match pk with
        | Some [] =>
            (Raise (MonSQLException "PRIMARY KEY MUST AT LEAST CONTAINS ONE COLUMN"), s1)
        | _ => bind (execute (create_sql t cols pk)) (λ _, commit) s1
        end
    | (Raise e, s1) => (Raise e, s1)
    end.
Proof.
  unfold create_table. unfold bind at 1. rewrite is_table_existed_run.
  unfold bind at 1. simpl.
  destruct (bool_decide (lower t ∈ list_tables (db s))); simpl.
  - destruct force; simpl; [|done].
    destruct (drop_table t false s) as [[[]|e] s1]; [|done].
    destruct pk as [[|p pk]|]; done.
  - unfold ret at 1. destruct pk as [[|p pk]|]; done.
Qed.

Lemma close_run s :
  close s =
  match db_close (db s) with
  | (Done _, d) =>
      (Ok tt, mkDatabase d (cursor s) ∅ (mode s) (calls s ++ [CallClose]) (objects s))
  | (Fail info, d) =>
      (Raise (BackendError info),
       mkDatabase d (cursor s) (table_map s) (mode s) (calls s ++ [CallClose]) (objects s))
  end.
Proof.
  unfold close. unfold_monad.
  by destruct (db_close (db s)) as [[[]|info] d].
Qed.

Lemma close_objects : keeps the_objects close.
Proof. intros s. rewrite close_run. by destruct (db_close (db s)) as [[[]|info] d]. Qed.

(** ** The handle cache across a sequence of calls *)

Lemma get_keeps_entry m n h s :
  table_map s !! n = Some h → table_map (after (get m) s) !! n = Some h.
Proof.
  intros Hn. unfold after. rewrite get_run.
  destruct (table_map s !! m) as [h'|] eqn:Hm; [done|].
  destruct (get_table_obj m (db s) (objects s)) as [[h'|info] o]; simpl; [|done].
  rewrite lookup_insert_ne; [done|]. intros ->. congruence.
Qed.

Lemma step_keeps_entry o n h s :
  o ≠ Close → table_map s !! n = Some h → table_map (step s o) !! n = Some h.
Proof.
  intros Ho Hn. destruct o; simpl; unfold after;
    [by apply get_keeps_entry|done| | | | | | |].
  - by rewrite (commit_table_map s).
  - by rewrite (set_foreign_key_check_table_map _ s).
  - done.
  - by rewrite (truncate_table_map _ s).
  - by rewrite is_table_existed_run.
  - by rewrite (create_table_table_map _ _ _ _ s).
  - by rewrite (drop_table_table_map _ _ s).
Qed.

Lemma run_ops_keeps_entry os n h s :
  Close ∉ os → table_map s !! n = Some h →
  table_map (run_ops os s) !! n = Some h.
Proof.
  revert s. induction os as [|o os IH]; intros s Hos Hn; [done|].
  simpl. apply IH.
  - intros Hin. apply Hos. by right.
  - apply step_keeps_entry; [|done]. intros ->. apply Hos. by left.
Qed.

(** ** Objects only accumulate *)

Lemma get_objects_mono m s :
  builds_new_objects → objects s ⊆ objects (after (get m) s).
Proof.
  intros Hnew. unfold after. rewrite get_run.
  destruct (table_map s !! m) as [h'|]; [done|].
  destruct (get_table_obj m (db s) (objects s)) as [r o] eqn:Hobj.
  apply Hnew in Hobj as [Hsub _]. by destruct r.
Qed.

Lemma step_objects_mono o s :
  builds_new_objects → objects s ⊆ objects (step s o).
Proof.
  intros Hnew. destruct o; simpl; unfold after.
  - by apply get_objects_mono.
  - by rewrite (close_objects s).
  - by rewrite (commit_objects s).
  - by rewrite (set_foreign_key_check_objects _ s).
  - done.
  - by rewrite (truncate_objects _ s).
  - by rewrite is_table_existed_run.
  - by rewrite (create_table_objects _ _ _ _ s).
  - by rewrite (drop_table_objects _ _ s).
Qed.

Lemma run_ops_objects_mono os s :
  builds_new_objects → objects s ⊆ objects (run_ops os s).
Proof.
  intros Hnew. revert s. induction os as [|o os IH]; intros s; [done|].
  simpl. etrans; [by apply (step_objects_mono o)|apply IH].
Qed.

(** A handle that is built and that the cache does not hold stays out of
    the cache: whatever enters the cache later is a newer object. *)

Lemma get_retired m h s :
  builds_new_objects → retired h s → retired h (after (get m) s).
Proof.
  intros Hnew [Hin Hout]. split; [by apply get_objects_mono|].
  unfold after. rewrite get_run.
  destruct (table_map s !! m) as [h'|] eqn:Hm; [done|].
  destruct (get_table_obj m (db s) (objects s)) as [r o] eqn:Hobj.
  apply Hnew in Hobj as [_ Hfresh]. destruct r as [h'|info]; simpl; [|done].
  intros n. destruct (decide (m = n)) as [->|Hne].
  - rewrite lookup_insert_eq. intros [= ->].
    by destruct (Hfresh h eq_refl).
  - by rewrite lookup_insert_ne.
Qed.

Lemma step_retired o h s :
  builds_new_objects → retired h s → retired h (step s o).
Proof.
  intros Hnew Hr. destruct o; [by apply get_retired|..];
    destruct Hr as [Hin Hout]; (split; [by apply step_objects_mono|]);
    simpl; unfold after.
  - rewrite close_run. by destruct (db_close (db s)) as [[[]|info] d].
  - by rewrite (commit_table_map s).
  - by rewrite (set_foreign_key_check_table_map _ s).
  - done.
  - by rewrite (truncate_table_map _ s).
  - by rewrite is_table_existed_run.
  - by rewrite (create_table_table_map _ _ _ _ s).
  - by rewrite (drop_table_table_map _ _ s).
Qed.

Lemma run_ops_retired os h s :
  builds_new_objects → retired h s → retired h (run_ops os s).
Proof.
  intros Hnew. revert s. induction os as [|o os IH]; intros s Hr; [done|].
  simpl. by apply IH, step_retired.
Qed.

(** The cache holds built objects only, from [__init__] on. *)
Lemma init_cache_built d m cs objs s :
  init d m cs objs = Ok s → cache_built s.
Proof.
  unfold init. destruct (db_cursor d) as [[c|info] d']; [|done].
  intros [= <-] n h. simpl. by rewrite lookup_empty.
Qed.

Lemma step_cache_built o s :
  builds_new_objects → cache_built s → cache_built (step s o).
Proof.
  intros Hnew Hs n h Hn.
  destruct o; simpl in *; unfold after in *;
    try (apply (step_objects_mono _ s Hnew); simpl; unfold after).
  - rewrite get_run in *.
    destruct (table_map s !! name) as [h'|] eqn:Hm; [by apply (Hs n)|].
    destruct (get_table_obj name (db s) (objects s)) as [r o] eqn:Hobj.
    apply Hnew in Hobj as [Hsub Hfresh]. destruct r as [h'|info]; simpl in *.
    + destruct (decide (name = n)) as [->|Hne].
      * rewrite lookup_insert_eq in Hn. injection Hn as ->.
        by destruct (Hfresh h eq_refl).
      * rewrite lookup_insert_ne in Hn by done. apply Hsub. by apply (Hs n).
    + apply Hsub. by apply (Hs n).
  - rewrite close_run in Hn. rewrite (close_objects s).
    destruct (db_close (db s)) as [[[]|info] d]; simpl in Hn; [done|by apply (Hs n)].
  - rewrite (commit_table_map s) in Hn. rewrite (commit_objects s). by apply (Hs n).
  - rewrite (set_foreign_key_check_table_map _ s) in Hn.
    rewrite (set_foreign_key_check_objects _ s). by apply (Hs n).
  - by apply (Hs n).
  - rewrite (truncate_table_map _ s) in Hn. rewrite (truncate_objects _ s).
    by apply (Hs n).
  - rewrite is_table_existed_run in *. by apply (Hs n).
  - rewrite (create_table_table_map _ _ _ _ s) in Hn.
    rewrite (create_table_objects _ _ _ _ s). by apply (Hs n).
  - rewrite (drop_table_table_map _ _ s) in Hn.
    rewrite (drop_table_objects _ _ s). by apply (Hs n).
Qed.

Lemma run_ops_cache_built os s :
  builds_new_objects → cache_built s → cache_built (run_ops os s).
Proof.
  intros Hnew. revert s. induction os as [|o os IH]; intros s Hs; [done|].
  simpl. by apply IH, step_cache_built.
Qed.

(** ** The handle cache *)

Lemma get_caches n s h s1 :
  get n s = (Ok h, s1) → table_map s1 !! n = Some h.
Proof.
  rewrite get_run. destruct (table_map s !! n) as [h0|] eqn:Hn.
  - by intros [= -> ->].
  - destruct (get_table_obj n (db s) (objects s)) as [[h0|info] o]; [|done].
    intros [= -> <-]. simpl. apply lookup_insert_eq.
Qed.

Lemma close_empties s s' : close s = (Ok tt, s') → table_map s' = ∅.
Proof.
  rewrite close_run. destruct (db_close (db s)) as [[[]|info] d]; [|done].
  by intros [= <-].
Qed.

(** C1.  Two calls [get(n)] on one session return the identical handle
    object, for as long as the session is not closed: when the first
    call returns [h], every [get(n)] made after any sequence of other
    calls (none of them [close]) returns the same object [h] and leaves
    the session as it is.  The first call returns the cached handle when
    there is one; otherwise [h] is what [get_table_obj(n)] built, and it
    is the object the cache holds for [n] from then on. *)
Theorem get_returns_cached_handle n s h s1 os :
  get n s = (Ok h, s1) →
  Close ∉ os →
  (table_map s !! n = None →
     ∃ o, get_table_obj n (db s) (objects s) = (Done h, o) ∧
          table_map s1 = <[n := h]> (table_map s))
  ∧ (∀ h0, table_map s !! n = Some h0 → h = h0 ∧ s1 = s)
  ∧ table_map s1 !! n = Some h
  ∧ get n (run_ops os s1) = (Ok h, run_ops os s1).
Proof.
  intros Hget Hos. pose proof (get_caches _ _ _ _ Hget) as Hcached.
  rewrite get_run in Hget.
  split_and!.
  - intros Hn. rewrite Hn in Hget.
    destruct (get_table_obj n (db s) (objects s)) as [[h0|info] o]; [|done].
    injection Hget as -> <-. by exists o.
  - intros h0 Hn. rewrite Hn in Hget. by injection Hget as -> ->.
  - done.
  - rewrite get_run. by rewrite (run_ops_keeps_entry os n h s1).
Qed.

(** C7.  When [close()] returns, the connection has been closed (the one
    call made on it is [close()], and the driver accepted it) and the
    cache is empty: the session holds no handle for any name, so no
    handle obtained before is reachable through it. *)
Theorem close_clears_cache s s' :
  close s = (Ok tt, s') →
  db_close (db s) = (Done tt, db s')
  ∧ calls s' = calls s ++ [CallClose]
  ∧ table_map s' = ∅
  ∧ (∀ n h, table_map s' !! n ≠ Some h).
Proof.
  rewrite close_run.
  destruct (db_close (db s)) as [[[]|info] d]; [|done].
  intros [= <-]. simpl. split_and!; try done;
    intros n h; by rewrite lookup_empty.
Qed.

Lemma get_after_close_differs n s h s1 os1 s2 os2 h' s3 :
  builds_new_objects →
  cache_built s →
  get n s = (Ok h, s1) →
  close (run_ops os1 s1) = (Ok tt, s2) →
  get n (run_ops os2 s2) = (Ok h', s3) →
  h' ≠ h.
Proof.
  intros Hnew Hbuilt Hget Hclose Hget'.
  assert (h ∈ objects s1) as Hin.
  { pose proof (step_cache_built (Get n) s Hnew Hbuilt n h) as Hstep.
    simpl in Hstep. unfold after in Hstep. rewrite Hget in Hstep.
    apply Hstep. by apply (get_caches n s). }
  assert (retired h s2) as Hret.
  { split.
    - replace (objects s2) with (objects (run_ops os1 s1)).
      + by apply (run_ops_objects_mono os1 s1 Hnew).
      + rewrite <- (close_objects (run_ops os1 s1)). by rewrite Hclose.
    - intros m. by rewrite (close_empties _ _ Hclose), lookup_empty. }
  intros ->.
  assert (retired h (after (get n) (run_ops os2 s2))) as [_ Hout].
  { by apply get_retired, run_ops_retired. }
  apply (Hout n). unfold after. rewrite Hget'.
  by apply (get_caches n (run_ops os2 s2)).
Qed.

(** C10.  The identity of handles does not span [close()].  Take a
    session built by [__init__] and used in any way, on a backend whose
    [get_table_obj] builds a new object at every call.  If [get(n)]
    returned [h] and [close()] returned later, then right after [close()]
    the cache has no handle for [n], the next [get(n)] returns the object
    that [get_table_obj(n)] builds then and caches it, and every [get(n)]
    made at any later time returns an object that is not [h]. *)
Theorem get_after_close_is_new n d m cs objs s0 os0 h s1 os1 s2 os2 h' s3 :
  builds_new_objects →
  init d m cs objs = Ok s0 →
  get n (run_ops os0 s0) = (Ok h, s1) →
  close (run_ops os1 s1) = (Ok tt, s2) →
  get n (run_ops os2 s2) = (Ok h', s3) →
  table_map s2 !! n = None
  ∧ (os2 = [] →
       get_table_obj n (db s2) (objects s2) = (Done h', objects s3) ∧
       table_map s3 !! n = Some h')
  ∧ h' ≠ h.
Proof.
  intros Hnew Hinit Hget Hclose Hget'.
  pose proof (close_empties _ _ Hclose) as Hempty.
  split_and!.
  - by rewrite Hempty, lookup_empty.
  - intros ->. simpl in Hget'. rewrite get_run in Hget'.
    rewrite Hempty, lookup_empty in Hget'.
    destruct (get_table_obj n (db s2) (objects s2)) as [[h0|info] o]; [|done].
    injection Hget' as -> <-. simpl. split; [done|]. apply lookup_insert_eq.
  - apply (get_after_close_differs n (run_ops os0 s0) h s1 os1 s2 os2 h' s3);
      try done.
    by apply run_ops_cache_built, (init_cache_built d m cs objs).
Qed.

(** ** Schema operations *)

Lemma existed_true n s :
  is_table_existed n s = (Ok true, s) →
  bool_decide (lower n ∈ list_tables (db s)) = true.
Proof. rewrite is_table_existed_run. by intros [= ->]. Qed.

Lemma existed_false n s :
  is_table_existed n s = (Ok false, s) →
  bool_decide (lower n ∈ list_tables (db s)) = false.
Proof. rewrite is_table_existed_run. by intros [= ->]. Qed.

(** C5.  [is_table_existed(n)] returns [True] exactly when the lower-cased
    [n] is in [list_tables()], and [False] otherwise, without touching the
    session; two names with the same lower-cased form get the same
    answer. *)
Theorem is_table_existed_case_insensitive n m s :
  lower n = lower m →
  ∃ b : bool,
    is_table_existed n s = (Ok b, s)
    ∧ (b = true ↔ lower n ∈ list_tables (db s))
    ∧ (b = false ↔ lower n ∉ list_tables (db s))
    ∧ is_table_existed m s = (Ok b, s)
    ∧ is_table_existed (lower n) s = (Ok b, s).
Proof.
  intros Hnm. exists (bool_decide (lower n ∈ list_tables (db s))).
  rewrite !is_table_existed_run, lower_idem, <- Hnm. split_and!; try done.
  - apply bool_decide_eq_true.
  - apply bool_decide_eq_false.
Qed.

(** C2.  On a table that exists (as [is_table_existed] sees it),
    [create_table] with [force_recreate=False] raises the
    table-already-exists exception, [MonSQLException('TABLE ALREADY
    EXISTS')], and leaves the session as it is.  With
    [force_recreate=True] the first call it makes on the connection is
    the [DROP TABLE IF EXISTS]; when the primary key is absent or
    non-empty and the driver accepts the four calls, they are the drop,
    a commit, the [CREATE TABLE] and a commit, in this order, and
    [create_table] returns. *)
Theorem create_table_on_existing_table n cols pk s :
  is_table_existed n s = (Ok true, s) →
  create_table n cols pk false s =
    (Raise (MonSQLException "TABLE ALREADY EXISTS"), s)
  ∧ (∃ rest, calls (after (create_table n cols pk true) s) =
       calls s ++ CallExecute (cursor s) ("DROP TABLE IF EXISTS " +:+ n) :: rest)
  ∧ (∀ d', pk ≠ Some [] →
       accepts [CallExecute (cursor s) ("DROP TABLE IF EXISTS " +:+ n);
                CallCommit;
                CallExecute (cursor s) (create_sql n cols pk);
                CallCommit] (db s) = Some d' →
       create_table n cols pk true s =
         (Ok tt,
          mkDatabase d' (cursor s) (table_map s) (mode s)
            (calls s ++ [CallExecute (cursor s) ("DROP TABLE IF EXISTS " +:+ n);
                         CallCommit;
                         CallExecute (cursor s) (create_sql n cols pk);
                         CallCommit])
            (objects s))).
Proof.
  intros He%existed_true. split_and!.
  - rewrite create_table_run. simpl. by rewrite He.
  - unfold after. rewrite create_table_run. simpl. rewrite He. simpl.
    rewrite drop_table_run, He. simpl. rewrite execute_commit_run.
    destruct (cursor_execute _ _ (db s)) as [[[]|info] d1]; simpl.
    + destruct (db_commit d1) as [[[]|info] d2]; simpl.
      * destruct pk as [[|p pk]|]; simpl.
        -- by exists [CallCommit].
        -- rewrite execute_commit_run. simpl.
           destruct (cursor_execute _ _ d2) as [[[]|info] d3]; simpl.
           ++ destruct (db_commit d3) as [r d4]; simpl.
              rewrite <- app_assoc. by eexists.
           ++ rewrite <- app_assoc. by eexists.
        -- rewrite execute_commit_run. simpl.
           destruct (cursor_execute _ _ d2) as [[[]|info] d3]; simpl.
           ++ destruct (db_commit d3) as [r d4]; simpl.
              rewrite <- app_assoc. by eexists.
           ++ rewrite <- app_assoc. by eexists.
      * by exists [CallCommit].
    + by exists [].
  - intros d' Hpk. simpl.
    rewrite create_table_run. simpl. rewrite He. simpl.
    rewrite drop_table_run, He. simpl. rewrite execute_commit_run.
    destruct (cursor_execute _ _ (db s)) as [[[]|info] d1]; simpl; [|done].
    destruct (db_commit d1) as [[[]|info] d2]; simpl; [|done].
    assert (bind (execute (create_sql n cols pk)) (λ _, commit)
              (mkDatabase d2 (cursor s) (table_map s) (mode s)
                 (calls s ++ [CallExecute (cursor s) ("DROP TABLE IF EXISTS " +:+ n);
                              CallCommit]) (objects s)) =
            match cursor_execute (cursor s) (create_sql n cols pk) d2 with
            | (Done _, d3) =>
                match db_commit d3 with
                | (r, d4) =>
                    (of_answer r,
                     mkDatabase d4 (cursor s) (table_map s) (mode s)
                       (calls s ++ [CallExecute (cursor s) ("DROP TABLE IF EXISTS " +:+ n);
                                    CallCommit;
                                    CallExecute (cursor s) (create_sql n cols pk);
                                    CallCommit]) (objects s))
                end
            | (Fail info, d3) =>
                (Raise (BackendError info),
                 mkDatabase d3 (cursor s) (table_map s) (mode s)
                   (calls s ++ [CallExecute (cursor s) ("DROP TABLE IF EXISTS " +:+ n);
                                CallCommit;
                                CallExecute (cursor s) (create_sql n cols pk)])
                   (objects s))
            end) as Hrun.
    { rewrite execute_commit_run. simpl.
      destruct (cursor_execute _ _ d2) as [[[]|info] d3]; simpl.
      - destruct (db_commit d3) as [r d4]. by rewrite <- app_assoc.
      - by rewrite <- app_assoc. }
    destruct (cursor_execute (cursor s) (create_sql n cols pk) d2)
      as [[[]|info] d3] eqn:Hexec; simpl; [|done].
    destruct (db_commit d3) as [[[]|info] d4] eqn:Hcommit; simpl; [|done].
    intros [= ->].
    destruct pk as [[|p pk]|]; [done|..]; by rewrite Hrun.
Qed.

(** C3.  On a table that does not exist, [create_table] with an empty
    primary-key sequence raises the schema exception,
    [MonSQLException('PRIMARY KEY MUST AT LEAST CONTAINS ONE COLUMN')],
    and leaves the session as it is: no call reaches the connection, so no
    [CREATE TABLE] statement is issued. *)
Theorem create_table_empty_primary_key n cols force s :
  is_table_existed n s = (Ok false, s) →
  create_table n cols (Some []) force s =
    (Raise (MonSQLException "PRIMARY KEY MUST AT LEAST CONTAINS ONE COLUMN"), s)
  ∧ calls (after (create_table n cols (Some []) force) s) = calls s.
Proof.
  intros He%existed_false. unfold after.
  rewrite create_table_run. simpl. by rewrite He.
Qed.

(** The raising path that is left: on a table that exists, a forced
    re-creation with an empty primary-key sequence drops the table, commits
    and only then raises. *)
Lemma create_table_forced_empty_primary_key n cols s d' :
  is_table_existed n s = (Ok true, s) →
  accepts [CallExecute (cursor s) ("DROP TABLE IF EXISTS " +:+ n); CallCommit]
    (db s) = Some d' →
  create_table n cols (Some []) true s =
    (Raise (MonSQLException "PRIMARY KEY MUST AT LEAST CONTAINS ONE COLUMN"),
     mkDatabase d' (cursor s) (table_map s) (mode s)
       (calls s ++ [CallExecute (cursor s) ("DROP TABLE IF EXISTS " +:+ n);
                    CallCommit])
       (objects s)).
Proof.
  intros He%existed_true. simpl.
  rewrite create_table_run. simpl. rewrite He. simpl.
  rewrite drop_table_run, He. simpl. rewrite execute_commit_run.
  destruct (cursor_execute _ _ (db s)) as [[[]|info] d1]; [|done].
  destruct (db_commit d1) as [[[]|info] d2]; [|done].
  by intros [= ->].
Qed.

(** C4.  [drop_table(n)] with [silent=False] on a table that does not
    exist raises the table-not-found exception,
    [MonSQLException('TABLE n DOES NOT EXIST')], before any call on the
    connection.  With [silent=True] it never raises an exception of its
    own, whether the table exists or not: it returns as soon as the driver
    accepts the statement and the commit, and only an exception of the
    driver can end it.  Whenever [drop_table] returns, the calls it made
    are [DROP TABLE IF EXISTS n] and then a commit. *)
Theorem drop_table_missing_table n s :
  (is_table_existed n s = (Ok false, s) →
     drop_table n false s =
       (Raise (MonSQLException ("TABLE " +:+ n +:+ " DOES NOT EXIST")), s))
  ∧ (∀ r s', drop_table n true s = (r, s') →
       r = Ok tt ∨ ∃ info, r = Raise (BackendError info))
  ∧ (∀ d', accepts [CallExecute (cursor s) ("DROP TABLE IF EXISTS " +:+ n);
                    CallCommit] (db s) = Some d' →
       drop_table n true s =
         (Ok tt,
          mkDatabase d' (cursor s) (table_map s) (mode s)
            (calls s ++ [CallExecute (cursor s) ("DROP TABLE IF EXISTS " +:+ n);
                         CallCommit])
            (objects s)))
  ∧ (∀ silent s', drop_table n silent s = (Ok tt, s') →
       calls s' =
         calls s ++ [CallExecute (cursor s) ("DROP TABLE IF EXISTS " +:+ n);
                     CallCommit]).
Proof.
  split_and!.
  - intros He%existed_false. rewrite drop_table_run. by rewrite He.
  - intros r s'. rewrite drop_table_run. simpl. rewrite execute_commit_run.
    destruct (cursor_execute _ _ (db s)) as [[[]|info] d1].
    + destruct (db_commit d1) as [[[]|info] d2]; intros [= <- _]; simpl; eauto.
    + intros [= <- _]. eauto.
  - intros d'. rewrite drop_table_run. simpl. rewrite execute_commit_run.
    destruct (cursor_execute _ _ (db s)) as [[[]|info] d1]; [|done].
    destruct (db_commit d1) as [[[]|info] d2]; [|done].
    by intros [= ->].
  - intros silent s'. rewrite drop_table_run.
    destruct (negb silent && _); [done|]. rewrite execute_commit_run.
    destruct (cursor_execute _ _ (db s)) as [[[]|info] d1]; [|done].
    destruct (db_commit d1) as [[[]|info] d2]; [|done].
    by intros [= <-].
Qed.

(** C6.  Whenever [create_table] returns, the last two calls it made on
    the connection are the [CREATE TABLE] statement and, right after it, a
    commit that the driver accepted; before them it made no call, or the
    drop and commit of a forced re-creation.  This holds in every
    transaction mode: the caller has no commit to make. *)
Theorem create_table_commits n cols pk force s s' :
  create_table n cols pk force s = (Ok tt, s') →
  ∃ before d,
    calls s' =
      before ++ [CallExecute (cursor s) (create_sql n cols pk); CallCommit]
    ∧ (before = calls s ∨
       before = calls s ++ [CallExecute (cursor s) ("DROP TABLE IF EXISTS " +:+ n);
                            CallCommit])
    ∧ db_commit d = (Done tt, db s')
    ∧ mode s' = mode s.
Proof.
  rewrite create_table_run. simpl.
  destruct (bool_decide (lower n ∈ list_tables (db s))) eqn:He; simpl.
  - destruct force; simpl; [|done].
    rewrite drop_table_run, He. simpl. rewrite execute_commit_run.
    destruct (cursor_execute _ _ (db s)) as [[[]|info] d1]; simpl; [|done].
    destruct (db_commit d1) as [[[]|info] d2]; simpl; [|done].
    intros Hrun.
    assert (bind (execute (create_sql n cols pk)) (λ _, commit)
              (mkDatabase d2 (cursor s) (table_map s) (mode s)
                 (calls s ++ [CallExecute (cursor s) ("DROP TABLE IF EXISTS " +:+ n);
                              CallCommit]) (objects s)) = (Ok tt, s')) as Hrun'.
    { by destruct pk as [[|p pk]|]. }
    clear Hrun. rewrite execute_commit_run in Hrun'. simpl in Hrun'.
    destruct (cursor_execute _ _ d2) as [[[]|info] d3]; [|done].
    destruct (db_commit d3) as [[[]|info] d4] eqn:Hc; [|done].
    injection Hrun' as <-. simpl. eexists _, d3. split_and!; eauto.
  - intros Hrun.
    assert (bind (execute (create_sql n cols pk)) (λ _, commit) s = (Ok tt, s'))
      as Hrun'.
    { by destruct pk as [[|p pk]|]. }
    clear Hrun. rewrite execute_commit_run in Hrun'.
    destruct (cursor_execute _ _ (db s)) as [[[]|info] d3]; [|done].
    destruct (db_commit d3) as [[[]|info] d4] eqn:Hc; [|done].
    injection Hrun' as <-. simpl. eexists _, d3. split_and!; eauto.
Qed.

(** C8.  [create_table] is atomic on its two error paths.  When it raises
    the table-already-exists exception, or when it is called with an
    empty primary-key sequence on a table that does not exist, it raises
    an exception of its own before any statement and before any commit:
    the session it leaves is the session it found, with the same
    connection state, the same history of calls and the same cache. *)
Theorem create_table_raises_before_any_call n cols pk force s r s' :
  create_table n cols pk force s = (r, s') →
  r = Raise (MonSQLException "TABLE ALREADY EXISTS")
  ∨ (is_table_existed n s = (Ok false, s) ∧ pk = Some []) →
  (∃ msg, r = Raise (MonSQLException msg))
  ∧ s' = s
  ∧ db s' = db s ∧ calls s' = calls s ∧ table_map s' = table_map s.
Proof.
  intros Hrun Hcase.
  enough ((∃ msg, r = Raise (MonSQLException msg)) ∧ s' = s) as [? ->] by done.
  rewrite create_table_run in Hrun. simpl in Hrun.
  destruct Hcase as [->|[He%existed_false ->]].
  - destruct (bool_decide (lower n ∈ list_tables (db s))) eqn:He; simpl in Hrun.
    + destruct force; simpl in Hrun; [|injection Hrun as <-; eauto].
      rewrite drop_table_run, He in Hrun. simpl in Hrun.
      rewrite execute_commit_run in Hrun.
      destruct (cursor_execute _ _ (db s)) as [[[]|info] d1]; [|done].
      destruct (db_commit d1) as [[[]|info] d2]; simpl in Hrun; [|done].
      destruct pk as [[|p pk]|]; [done|..]; rewrite execute_commit_run in Hrun;
        simpl in Hrun;
        (destruct (cursor_execute _ _ d2) as [[[]|info] d3]; [|done]);
        by destruct (db_commit d3) as [[[]|info] d4].
    + destruct pk as [[|p pk]|]; [done|..]; rewrite execute_commit_run in Hrun;
        (destruct (cursor_execute _ _ (db s)) as [[[]|info] d3]; [|done]);
        by destruct (db_commit d3) as [[[]|info] d4].
  - rewrite He in Hrun. simpl in Hrun. injection Hrun as <- <-. eauto.
Qed.

(** C9.  With [primary_key] omitted, [create_table] never raises the
    empty-primary-key exception, on any session.  On a table that does not
    exist, the first call it makes is the execution of the statement
    [CREATE TABLE n(c1,..,ck)], built from the name and the column
    specifications alone, with no [PRIMARY KEY(..)] suffix, and the only
    call that can follow is the commit.  The statement mentions
    [PRIMARY KEY] only if the caller's name or column specifications
    do. *)
Theorem create_table_without_primary_key n cols force s :
  is_table_existed n s = (Ok false, s) →
  (∀ force0 s0,
     (create_table n cols None force0 s0).1 ≠
       Raise (MonSQLException "PRIMARY KEY MUST AT LEAST CONTAINS ONE COLUMN"))
  ∧ (∃ sql rest,
      calls (after (create_table n cols None force) s) =
        calls s ++ CallExecute (cursor s) sql :: rest
      ∧ sql = "CREATE TABLE " +:+ n +:+ "(" +:+ join "," cols +:+ ")"
      ∧ (rest = [] ∨ rest = [CallCommit])
      ∧ (contains "PRIMARY KEY" n = false →
         Forall (λ c, contains "PRIMARY KEY" c = false) cols →
         contains "PRIMARY KEY" sql = false)).
Proof.
  intros He%existed_false. split.
  - intros force0 s0. rewrite create_table_run. simpl.
    destruct (bool_decide (lower n ∈ list_tables (db s0))) eqn:He0; simpl.
    + destruct force0; simpl; [|done].
      rewrite drop_table_run, He0. simpl. rewrite execute_commit_run.
      destruct (cursor_execute _ _ (db s0)) as [[[]|info] d1]; [|done].
      destruct (db_commit d1) as [[[]|info] d2]; simpl; [|done].
      rewrite execute_commit_run. simpl.
      destruct (cursor_execute _ _ d2) as [[[]|info] d3]; [|done].
      by destruct (db_commit d3) as [[[]|info] d4].
    + rewrite execute_commit_run.
      destruct (cursor_execute _ _ (db s0)) as [[[]|info] d3]; [|done].
      by destruct (db_commit d3) as [[[]|info] d4].
  - unfold after. rewrite create_table_run. simpl. rewrite He. simpl.
    rewrite execute_commit_run. unfold create_sql, columns_specs.
    pose proof (create_sql_no_primary_key n cols) as Hsql.
    destruct (cursor_execute _ _ (db s)) as [[[]|info] d3]; simpl.
    + destruct (db_commit d3) as [r d4]. simpl.
      eexists _, [CallCommit]. split_and!; eauto.
    + eexists _, []. split_and!; eauto.
Qed.

End Properties.

(** * The class on the in-memory backend *)

Lemma Memory_builds_new_objects :
  builds_new_objects (Conn := Memory.conn).
Proof.
  intros name d objs r objs' [= <- <-]. split; [set_solver|].
  intros h [= <-]. split; [apply is_fresh|set_solver].
Qed.

Lemma Memory_traffic_no_close : Close ∉ Memory.traffic.
Proof.
  unfold Memory.traffic. intros Hin.
  repeat (apply elem_of_cons in Hin as [Hin|Hin]; [discriminate Hin|]).
  by apply elem_of_nil in Hin.
Qed.

Example Memory_session_init :
  init (Memory.mkConn 0 ["users"]) 0 [] ∅ = Ok Memory.session.
Proof. reflexivity. Qed.

(** [create_table] twice on a new name: without [force_recreate] the
    second call raises, with it both calls return. *)
Example Memory_create_twice :
  let create force := CreateTable "t" ["id INT"] (Some ["id"]) force in
  (create_table "t" ["id INT"] (Some ["id"]) false
     (step Memory.session (create false))).1 =
    Raise (MonSQLException "TABLE ALREADY EXISTS")
  ∧ (create_table "t" ["id INT"] (Some ["id"]) true Memory.session).1 = Ok tt
  ∧ (create_table "t" ["id INT"] (Some ["id"]) true
       (step Memory.session (create true))).1 = Ok tt.
Proof. by vm_compute. Qed.

(** [drop_table] on a table that is not there. *)
Example Memory_drop_missing :
  (drop_table "missing" false Memory.session).1 =
    Raise (MonSQLException "TABLE missing DOES NOT EXIST")
  ∧ (drop_table "missing" true Memory.session).1 = Ok tt.
Proof. by vm_compute. Qed.

Lemma get_returns_cached_handle_witness :
  get "users" Memory.session = (Ok 0, Memory.fetched)
  ∧ (Close ∉ Memory.traffic)
  ∧ get "users" (run_ops Memory.traffic Memory.fetched) =
      (Ok 0, run_ops Memory.traffic Memory.fetched).
Proof.
  assert (get "users" Memory.session = (Ok 0, Memory.fetched))
    as Hget by (vm_compute; reflexivity).
  split; [exact Hget|]. split; [exact Memory_traffic_no_close|].
  exact (proj2 (proj2 (proj2
    (get_returns_cached_handle "users" Memory.session 0 _ Memory.traffic
       Hget Memory_traffic_no_close)))).
Defined.

Lemma close_clears_cache_witness :
  close (run_ops Memory.traffic Memory.fetched) = (Ok tt, Memory.closed)
  ∧ table_map Memory.closed = ∅.
Proof.
  assert (close (run_ops Memory.traffic Memory.fetched) = (Ok tt, Memory.closed))
    as Hclose by (vm_compute; reflexivity).
  split; [exact Hclose|].
  exact (proj1 (proj2 (proj2 (close_clears_cache _ _ Hclose)))).
Defined.

Lemma get_after_close_is_new_witness :
  builds_new_objects (Conn := Memory.conn)
  ∧ init (Memory.mkConn 0 ["users"]) 0 [] ∅ = Ok Memory.session
  ∧ get "users" (run_ops [] Memory.session) = (Ok 0, Memory.fetched)
  ∧ close (run_ops Memory.traffic Memory.fetched) = (Ok tt, Memory.closed)
  ∧ get "users" (run_ops Memory.traffic Memory.closed) =
      (Ok 3, run_ops Memory.traffic Memory.closed)
  ∧ 3 ≠ 0.
Proof.
  assert (init (Memory.mkConn 0 ["users"]) 0 [] ∅ = Ok Memory.session)
    as Hinit by reflexivity.
  assert (get "users" (run_ops [] Memory.session) = (Ok 0, Memory.fetched))
    as Hget by (vm_compute; reflexivity).
  assert (close (run_ops Memory.traffic Memory.fetched) = (Ok tt, Memory.closed))
    as Hclose by (vm_compute; reflexivity).
  assert (get "users" (run_ops Memory.traffic Memory.closed) =
            (Ok 3, run_ops Memory.traffic Memory.closed))
    as Hget' by (vm_compute; reflexivity).
  split; [exact Memory_builds_new_objects|].
  split; [exact Hinit|].
  split; [exact Hget|]. split; [exact Hclose|]. split; [exact Hget'|].
  exact (proj2 (proj2
    (get_after_close_is_new "users" (Memory.mkConn 0 ["users"]) 0 [] ∅
       Memory.session [] 0 Memory.fetched
       Memory.traffic Memory.closed Memory.traffic 3 _
       Memory_builds_new_objects Hinit Hget Hclose Hget'))).
Defined.

Lemma is_table_existed_case_insensitive_witness :
  lower "Users" = lower "USERS"
  ∧ is_table_existed "Users" Memory.session = (Ok true, Memory.session)
  ∧ is_table_existed "USERS" Memory.session = (Ok true, Memory.session).
Proof.
  assert (lower "Users" = lower "USERS") as Hl by reflexivity.
  split; [exact Hl|].
  destruct (is_table_existed_case_insensitive "Users" "USERS" Memory.session Hl)
    as (b & Hn & Hb & _ & Hm & _).
  assert (b = true) as Htrue.
  { apply Hb. vm_compute. apply list_elem_of_here. }
  rewrite Htrue in Hn, Hm. by split.
Defined.

Lemma create_table_on_existing_table_witness :
  is_table_existed "Users" Memory.session = (Ok true, Memory.session)
  ∧ create_table "Users" ["id INT"] (Some ["id"]) false Memory.session =
      (Raise (MonSQLException "TABLE ALREADY EXISTS"), Memory.session)
  ∧ create_table "Users" ["id INT"] (Some ["id"]) true Memory.session =
      (Ok tt,
       mkDatabase (Memory.mkConn 1 ["users"]) 0 ∅ 0
         [CallCursor;
          CallExecute 0 "DROP TABLE IF EXISTS Users";
          CallCommit;
          CallExecute 0 "CREATE TABLE Users(id INT,PRIMARY KEY(id))";
          CallCommit] ∅).
Proof.
  assert (is_table_existed "Users" Memory.session = (Ok true, Memory.session))
    as He by reflexivity.
  destruct (create_table_on_existing_table "Users" ["id INT"] (Some ["id"])
              Memory.session He) as (Hraise & _ & Hforce).
  split; [exact He|]. split; [exact Hraise|].
  apply (Hforce (Memory.mkConn 1 ["users"])); [discriminate|reflexivity].
Defined.

Lemma create_table_empty_primary_key_witness :
  is_table_existed "orders" Memory.session = (Ok false, Memory.session)
  ∧ create_table "orders" ["id INT"] (Some []) true Memory.session =
      (Raise (MonSQLException "PRIMARY KEY MUST AT LEAST CONTAINS ONE COLUMN"),
       Memory.session).
Proof.
  assert (is_table_existed "orders" Memory.session = (Ok false, Memory.session))
    as He by reflexivity.
  split; [exact He|].
  exact (proj1 (create_table_empty_primary_key "orders" ["id INT"] true
                  Memory.session He)).
Defined.

Lemma drop_table_missing_table_witness :
  is_table_existed "missing" Memory.session = (Ok false, Memory.session)
  ∧ drop_table "missing" false Memory.session =
      (Raise (MonSQLException "TABLE missing DOES NOT EXIST"), Memory.session)
  ∧ drop_table "missing" true Memory.session =
      (Ok tt,
       mkDatabase (Memory.mkConn 1 ["users"]) 0 ∅ 0
         [CallCursor; CallExecute 0 "DROP TABLE IF EXISTS missing"; CallCommit] ∅).
Proof.
  assert (is_table_existed "missing" Memory.session = (Ok false, Memory.session))
    as He by reflexivity.
  destruct (drop_table_missing_table "missing" Memory.session)
    as (Hraise & _ & Hsilent & _).
  split; [exact He|]. split; [exact (Hraise He)|].
  apply (Hsilent (Memory.mkConn 1 ["users"])). reflexivity.
Defined.

Lemma create_table_commits_witness :
  create_table "orders" ["id INT"] None false Memory.session =
    (Ok tt, after (create_table "orders" ["id INT"] None false) Memory.session)
  ∧ ∃ before d,
      calls (after (create_table "orders" ["id INT"] None false) Memory.session) =
        before ++ [CallExecute 0 "CREATE TABLE orders(id INT)"; CallCommit]
      ∧ (before = [CallCursor] ∨
         before = [CallCursor; CallExecute 0 "DROP TABLE IF EXISTS orders";
                   CallCommit])
      ∧ db_commit d =
          (Done tt,
           db (after (create_table "orders" ["id INT"] None false) Memory.session))
      ∧ mode (after (create_table "orders" ["id INT"] None false) Memory.session) = 0.
Proof.
  assert (create_table "orders" ["id INT"] None false Memory.session =
            (Ok tt, after (create_table "orders" ["id INT"] None false)
                      Memory.session))
    as Hrun by (vm_compute; reflexivity).
  split; [exact Hrun|].
  exact (create_table_commits "orders" ["id INT"] None false Memory.session _ Hrun).
Defined.

Lemma create_table_raises_before_any_call_witness :
  create_table "Users" ["id INT"] None false Memory.session =
    (Raise (MonSQLException "TABLE ALREADY EXISTS"),
     after (create_table "Users" ["id INT"] None false) Memory.session)
  ∧ after (create_table "Users" ["id INT"] None false) Memory.session =
      Memory.session.
Proof.
  assert (create_table "Users" ["id INT"] None false Memory.session =
            (Raise (MonSQLException "TABLE ALREADY EXISTS"),
             after (create_table "Users" ["id INT"] None false) Memory.session))
    as Hrun by (vm_compute; reflexivity).
  split; [exact Hrun|].
  exact (proj1 (proj2
    (create_table_raises_before_any_call "Users" ["id INT"] None false
       Memory.session _ _ Hrun (or_introl eq_refl)))).
Defined.

Lemma create_table_without_primary_key_witness :
  is_table_existed "orders" Memory.session = (Ok false, Memory.session)
  ∧ ∃ sql rest,
      calls (after (create_table "orders" ["id INT"; "total INT"] None false)
               Memory.session) =
        [CallCursor] ++ CallExecute 0 sql :: rest
      ∧ sql = "CREATE TABLE orders(id INT,total INT)"
      ∧ (rest = [] ∨ rest = [CallCommit])
      ∧ contains "PRIMARY KEY" sql = false.
Proof.
  assert (is_table_existed "orders" Memory.session = (Ok false, Memory.session))
    as He by reflexivity.
  split; [exact He|].
  destruct (proj2 (create_table_without_primary_key "orders"
                     ["id INT"; "total INT"] false Memory.session He))
    as (sql & rest & Hcalls & Hsql & Hrest & Hpk).
  exists sql, rest. split; [exact Hcalls|]. split; [exact Hsql|].
  split; [exact Hrest|].
  apply Hpk; [reflexivity|].
  repeat constructor.
Defined.

(** * Further properties of the class *)

Section Further.
Context {Conn Mode : Type} `{!Backend Conn}.

Abbreviation Session := (Database Conn Mode).
Implicit Types (s : Session) (n name tablename : string) (h : ref).

(** ** Who changes the cache *)

(** X1.  Only [get] and [close] change the handle cache: every other
    public method, whether it returns or raises, leaves the cache and the
    set of built handles as they are. *)
Theorem other_methods_keep_cache o s :
  o ≠ Close →
  (∀ name, o ≠ Get name) →
  table_map (step s o) = table_map s ∧ objects (step s o) = objects s.
Proof.
  intros Hclose Hget. destruct o; simpl; unfold after.
  - by destruct (Hget name).
  - done.
  - by rewrite (commit_table_map s), (commit_objects s).
  - by rewrite (set_foreign_key_check_table_map _ s),
      (set_foreign_key_check_objects _ s).
  - done.
  - by rewrite (truncate_table_map _ s), (truncate_objects _ s).
  - by rewrite is_table_existed_run.
  - by rewrite (create_table_table_map _ _ _ _ s), (create_table_objects _ _ _ _ s).
  - by rewrite (drop_table_table_map _ _ s), (drop_table_objects _ _ s).
Qed.

Lemma get_other_entry m n s :
  n ≠ m →
  table_map (after (get m) s) !! n = table_map s !! n.
Proof.
  intros Hne. unfold after. rewrite get_run.
  destruct (table_map s !! m) as [h'|]; [done|].
  destruct (get_table_obj m (db s) (objects s)) as [[h'|info] o]; simpl; [|done].
  by rewrite lookup_insert_ne.
Qed.

(** X2.  [get(m)] changes the cache at [m] only: the entry of every other
    name, present or absent, is what it was, whether [get] returns or
    raises; and at [m] it never replaces a handle that is there. *)
Theorem get_keeps_other_names m n s :
  n ≠ m →
  table_map (after (get m) s) !! n = table_map s !! n
  ∧ (∀ h, table_map s !! m = Some h → table_map (after (get m) s) !! m = Some h).
Proof.
  intros Hne. split; [by apply get_other_entry|].
  intros h Hm. by apply get_keeps_entry.
Qed.

Lemma close_cache_cases s :
  table_map (after close s) = ∅ ∨ table_map (after close s) = table_map s.
Proof.
  unfold after. rewrite close_run.
  destruct (db_close (db s)) as [[[]|info] d]; simpl; auto.
Qed.

(** X3.  A name is in the cache only if it was there before or [get] was
    called with it: after any sequence of calls, every cached name is a
    name of the initial cache or the argument of one of the [get]s. *)
Theorem cache_names_come_from_get os s n :
  is_Some (table_map (run_ops os s) !! n) →
  is_Some (table_map s !! n) ∨ Get n ∈ os.
Proof.
  revert s. induction os as [|o os IH]; intros s Hn; [by left|].
  simpl in Hn. apply IH in Hn as [Hn|Hin]; [|right; by right].
  destruct o as [m| | | | | | | |]; simpl in Hn; unfold after in Hn.
  - destruct (decide (n = m)) as [->|Hne]; [right; by left|].
    left. by rewrite <- (get_other_entry m n s Hne).
  - left. destruct (close_cache_cases s) as [He|He];
      unfold after in He; rewrite He in Hn; [|done].
    rewrite lookup_empty in Hn. by destruct Hn.
  - left. by rewrite (commit_table_map s) in Hn.
  - left. by rewrite (set_foreign_key_check_table_map _ s) in Hn.
  - by left.
  - left. by rewrite (truncate_table_map _ s) in Hn.
  - left. by rewrite is_table_existed_run in Hn.
  - left. by rewrite (create_table_table_map _ _ _ _ s) in Hn.
  - left. by rewrite (drop_table_table_map _ _ s) in Hn.
Qed.

(** X4.  Between two [close()], no handle is replaced or evicted: after
    any sequence of calls without [close], the cache holds every entry it
    held before. *)
Theorem cache_grows_until_close os s :
  Close ∉ os →
  table_map s ⊆ table_map (run_ops os s).
Proof.
  intros Hos. apply map_subseteq_spec. intros n h Hn.
  by apply run_ops_keeps_entry.
Qed.

(** X5.  [get] raises only when [get_table_obj] does, and then caches
    nothing: the exception is the hook's, never a [KeyError] of the
    final subscript; the name had no handle, the cache is what it was, and
    the class made no call on the connection. *)
Theorem get_raises_only_from_hook n s e s' :
  get n s = (Raise e, s') →
  (∃ info, e = BackendError info ∧
           get_table_obj n (db s) (objects s) = (Fail info, objects s'))
  ∧ table_map s !! n = None
  ∧ table_map s' = table_map s
  ∧ calls s' = calls s
  ∧ db s' = db s.
Proof.
  rewrite get_run.
  destruct (table_map s !! n) as [h|]; [done|].
  destruct (get_table_obj n (db s) (objects s)) as [[h|info] o]; [done|].
  intros [= <- <-]. simpl. split_and!; eauto.
Qed.

(** X6.  When the driver's [close()] raises, [Database.close] raises the
    same exception and the cache is not cleared: the reset comes after the
    call that failed. *)
Theorem close_raises_keeps_cache s e s' :
  close s = (Raise e, s') →
  (∃ info, e = BackendError info ∧ db_close (db s) = (Fail info, db s'))
  ∧ table_map s' = table_map s
  ∧ calls s' = calls s ++ [CallClose].
Proof.
  rewrite close_run.
  destruct (db_close (db s)) as [[[]|info] d]; [done|].
  intros [= <- <-]. simpl. split_and!; eauto.
Qed.

(** ** What every method preserves *)

Lemma along_ret {A B} (R : relation B) `{!Reflexive R} (f : Session → B) (a : A) :
  along R f (ret a).
Proof. intros s. simpl. reflexivity. Qed.

Lemma along_raise {A B} (R : relation B) `{!Reflexive R} (f : Session → B) e :
  along R f (raise (A:=A) e).
Proof. intros s. simpl. reflexivity. Qed.

Lemma along_gets {A B} (R : relation B) `{!Reflexive R} (f : Session → B)
    (g : Session → A) :
  along R f (gets g).
Proof. intros s. simpl. reflexivity. Qed.

Lemma along_bind {A A' B} (R : relation B) `{!Transitive R} (f : Session → B)
    (m : M A) (k : A → M A') :
  along R f m → (∀ a, along R f (k a)) → along R f (bind m k).
Proof.
  intros Hm Hk s. unfold bind. specialize (Hm s).
  destruct (m s) as [[a|e] s1]; simpl in *; [|done].
  etrans; [exact Hm|apply Hk].
Qed.

Lemma along_if {A B} (R : relation B) (f : Session → B) (b : bool) (m1 m2 : M A) :
  along R f m1 → along R f m2 → along R f (if b then m1 else m2).
Proof. by destruct b. Qed.

Lemma along_set_table_map {B} (R : relation B) `{!Reflexive R} (f : Session → B) m :
  (∀ s, f (mkDatabase (db s) (cursor s) m (mode s) (calls s) (objects s)) = f s) →
  along R f (set_table_map m).
Proof. intros Hf s. simpl. by rewrite Hf. Qed.

Lemma along_get_table_obj {B} (R : relation B) `{!Reflexive R} (f : Session → B) n :
  (∀ s o, f (mkDatabase (db s) (cursor s) (table_map s) (mode s) (calls s) o) = f s) →
  along R f (call_get_table_obj n).
Proof.
  intros Hf s. unfold call_get_table_obj.
  destruct (get_table_obj n (db s) (objects s)). simpl. by rewrite Hf.
Qed.

Lemma along_truncate_table {B} (R : relation B) `{!Reflexive R} (f : Session → B) t :
  (∀ s d, f (mkDatabase d (cursor s) (table_map s) (mode s) (calls s) (objects s)) = f s) →
  along R f (call_truncate_table t).
Proof.
  intros Hf s. unfold call_truncate_table.
  destruct (truncate_table t (db s)). simpl. by rewrite Hf.
Qed.

Ltac unfold_methods :=
  unfold get, ensure_table_obj, close, commit, set_foreign_key_check,
    is_table_existed, call_list_tables, create_table, drop_table, execute,
    execute_on, new_cursor.

Lemma step_along {B} (R : relation B) `{!PreOrder R} (f : Session → B) :
  (∀ A c (g : Conn → answer A * Conn), along R f (on_connection c g)) →
  (∀ s m, f (mkDatabase (db s) (cursor s) m (mode s) (calls s) (objects s)) = f s) →
  (∀ s o, f (mkDatabase (db s) (cursor s) (table_map s) (mode s) (calls s) o) = f s) →
  (∀ s d, f (mkDatabase d (cursor s) (table_map s) (mode s) (calls s) (objects s)) = f s) →
  ∀ o s, R (f s) (f (step s o)).
Proof.
  intros Hconn Hmap Hobj Hdb o s.
  assert (∀ A (a : A), along R f (ret a)) as Hret
    by (intros; apply along_ret; apply _).
  assert (∀ A e, along R f (raise (A:=A) e)) as Hraise
    by (intros; apply along_raise; apply _).
  assert (∀ A (g : Session → A), along R f (gets g)) as Hgets
    by (intros; apply along_gets; apply _).
  assert (∀ m, along R f (set_table_map m)) as Hset
    by (intros; apply along_set_table_map; [apply _|done]).
  assert (∀ n, along R f (call_get_table_obj n)) as Hhook
    by (intros; apply along_get_table_obj; [apply _|done]).
  assert (∀ t, along R f (call_truncate_table t)) as Htrunc
    by (intros; apply along_truncate_table; [apply _|done]).
  assert (∀ A A' (m : M A) (k : A → M A'),
            along R f m → (∀ a, along R f (k a)) → along R f (bind m k)) as Hbind
    by (intros; apply along_bind; [apply _|done..]).
  destruct o; simpl; unfold after;
    match goal with |- R _ (f (?m s).2) => enough (along R f m) as Hm by apply Hm end;
    unfold_methods;
    repeat first
      [ apply Hbind; [|intros ?]
      | apply Hret | apply Hraise | apply Hgets | apply Hset | apply Hhook
      | apply Htrunc | apply Hconn
      | match goal with
        | |- along _ _ (if ?b then _ else _) => destruct b
        | |- along _ _ (match ?x with _ => _ end) => destruct x
        | |- along _ _ (let _ := _ in _) => cbv zeta
        end ].
Qed.

Lemma run_ops_along {B} (R : relation B) `{!PreOrder R} (f : Session → B) :
  (∀ o s, R (f s) (f (step s o))) →
  ∀ os s, R (f s) (f (run_ops os s)).
Proof.
  intros Hstep os. induction os as [|o os IH]; intros s; simpl; [reflexivity|].
  etrans; [apply (Hstep o)|apply IH].
Qed.

(** X7.  No method rebinds the cursor or the transaction mode: after any
    sequence of calls, [close] included, the session still holds the
    cursor that [__init__] opened and the mode it was built with. *)
Theorem attributes_never_change os s :
  cursor (run_ops os s) = cursor s ∧ mode (run_ops os s) = mode s.
Proof.
  enough ((cursor s, mode s) = (cursor (run_ops os s), mode (run_ops os s)))
    as [= -> ->] by done.
  apply (run_ops_along eq (λ s : Session, (cursor s, mode s))).
  apply step_along; [apply _| |done..].
  intros A c g s0. unfold on_connection. by destruct (g (db s0)).
Qed.


(** ** The foreign-key switch *)

Lemma set_foreign_key_check_run b s :
  set_foreign_key_check b s =
  match db_cursor (db s) with
  | (Done c, d1) =>
      match cursor_execute c
              (if b then "SET foreign_key_checks = 1;"
               else "SET foreign_key_checks = 0;") d1 with
      | (r, d2) =>
          (of_answer r,
           mkDatabase d2 (cursor s) (table_map s) (mode s)
             (calls s ++
              [CallCursor;
               CallExecute c (if b then "SET foreign_key_checks = 1;"
                              else "SET foreign_key_checks = 0;")])
             (objects s))
      end
  | (Fail info, d1) =>
      (Raise (BackendError info),
       mkDatabase d1 (cursor s) (table_map s) (mode s)
         (calls s ++ [CallCursor]) (objects s))
  end.
Proof.
  unfold set_foreign_key_check, new_cursor, execute_on, on_connection, bind.
  destruct b; simpl;
    (destruct (db_cursor (db s)) as [[c|info] d1]; simpl; [|done]);
    destruct (cursor_execute c _ d1) as [r d2]; simpl;
    by rewrite <- app_assoc.
Qed.

(** X9.  [set_foreign_key_check] opens a cursor of its own and runs the
    [SET foreign_key_checks] statement on that cursor, [1] for a true
    argument and [0] otherwise; it does not commit, and it leaves the
    session's cursor and cache as they are. *)
Theorem set_foreign_key_check_uses_new_cursor to_check s s' :
  set_foreign_key_check to_check s = (Ok tt, s') →
  ∃ c d1,
    db_cursor (db s) = (Done c, d1)
    ∧ cursor_execute c
        (if to_check then "SET foreign_key_checks = 1;"
         else "SET foreign_key_checks = 0;") d1 = (Done tt, db s')
    ∧ calls s' =
        calls s ++
        [CallCursor;
         CallExecute c (if to_check then "SET foreign_key_checks = 1;"
                        else "SET foreign_key_checks = 0;")]
    ∧ cursor s' = cursor s
    ∧ table_map s' = table_map s.
Proof.
  rewrite set_foreign_key_check_run.
  destruct (db_cursor (db s)) as [[c|info] d1]; [|done].
  destruct (cursor_execute c _ d1) as [[[]|info] d2] eqn:Hexec; [|done].
  intros [= <-]. simpl. exists c, d1. split_and!; done.
Qed.

(** ** More on the schema operations *)

(** X10.  The one way [create_table] raises the empty-primary-key
    exception on a table that exists: it was called with
    [force_recreate=True] and an empty primary-key sequence, and by then
    it has dropped the table and committed.  The table is gone and is not
    re-created. *)
Theorem create_table_empty_primary_key_after_drop n cols pk force s s' :
  is_table_existed n s = (Ok true, s) →
  create_table n cols pk force s =
    (Raise (MonSQLException "PRIMARY KEY MUST AT LEAST CONTAINS ONE COLUMN"), s') →
  pk = Some [] ∧ force = true
  ∧ calls s' =
      calls s ++ [CallExecute (cursor s) ("DROP TABLE IF EXISTS " +:+ n); CallCommit]
  ∧ accepts [CallExecute (cursor s) ("DROP TABLE IF EXISTS " +:+ n); CallCommit]
      (db s) = Some (db s').
Proof.
  intros He%existed_true. rewrite create_table_run. simpl. rewrite He. simpl.
  destruct force; simpl; [|done].
  rewrite drop_table_run, He. simpl. rewrite execute_commit_run.
  destruct (cursor_execute _ _ (db s)) as [[[]|info] d1]; [|done].
  destruct (db_commit d1) as [[[]|info] d2]; simpl; [|done].
  destruct pk as [[|p pk]|].
  - by intros [= <-].
  - rewrite execute_commit_run. simpl.
    destruct (cursor_execute _ _ d2) as [[[]|info] d3]; [|done].
    by destruct (db_commit d3) as [[[]|info] d4].
  - rewrite execute_commit_run. simpl.
    destruct (cursor_execute _ _ d2) as [[[]|info] d3]; [|done].
    by destruct (db_commit d3) as [[[]|info] d4].
Qed.

(** X11.  [create_table] raises three kinds of exception and no other: its
    own two, and whatever the driver raises.  The [drop_table] it calls
    for a forced re-creation never raises its table-not-found exception,
    since the table has just been seen. *)
Theorem create_table_exceptions n cols pk force s e s' :
  create_table n cols pk force s = (Raise e, s') →
  e = MonSQLException "TABLE ALREADY EXISTS"
  ∨ e = MonSQLException "PRIMARY KEY MUST AT LEAST CONTAINS ONE COLUMN"
  ∨ ∃ info, e = BackendError info.
Proof.
  rewrite create_table_run. simpl.
  assert (∀ sql s1, bind (execute sql) (λ _, commit) s1 = (Raise e, s') →
                    ∃ info, e = BackendError info) as Htail.
  { intros sql s1. rewrite execute_commit_run.
    destruct (cursor_execute _ _ (db s1)) as [[[]|info] d1].
    - destruct (db_commit d1) as [[[]|info] d2]; [done|].
      intros [= <- _]. eauto.
    - intros [= <- _]. eauto. }
  destruct (bool_decide (lower n ∈ list_tables (db s))) eqn:He; simpl.
  - destruct force; simpl; [|intros [= <- _]; auto].
    rewrite drop_table_run, He. simpl.
    destruct (bind (execute _) _ s) as [[[]|e1] s1] eqn:Hdrop.
    + destruct pk as [[|p pk]|]; [intros [= <- _]; auto|..];
        intros Hrun%Htail; auto.
    + intros [= <- <-]. apply Htail in Hdrop. auto.
  - destruct pk as [[|p pk]|]; [intros [= <- _]; auto|..];
      intros Hrun%Htail; auto.
Qed.

(** X12.  On a table that does not exist, [force_recreate] changes
    nothing: the two calls have the same result and leave the same
    session. *)
Theorem create_table_force_is_for_existing_tables n cols pk s :
  is_table_existed n s = (Ok false, s) →
  create_table n cols pk true s = create_table n cols pk false s.
Proof.
  intros He%existed_false. rewrite !create_table_run. simpl. by rewrite He.
Qed.

(** X13.  On a table that exists, [silent] changes nothing: [drop_table]
    makes the same calls and has the same result with either value. *)
Theorem drop_table_silent_is_for_missing_tables n s :
  is_table_existed n s = (Ok true, s) →
  drop_table n false s = drop_table n true s.
Proof.
  intros He%existed_true. rewrite !drop_table_run. simpl. by rewrite He.
Qed.

(** X14.  With a non-empty primary key on a table that does not exist,
    [create_table] raises no exception of its own, and the first call it
    makes runs [CREATE TABLE n(c1,..,ck,PRIMARY KEY(p1,..,pj))]: the
    column specifications, then one [PRIMARY KEY] clause that lists the
    key columns in the order given. *)
Theorem create_table_with_primary_key n cols p ps force s :
  is_table_existed n s = (Ok false, s) →
  ∃ r s' sql rest,
    create_table n cols (Some (p :: ps)) force s = (r, s')
    ∧ (∀ msg, r ≠ Raise (MonSQLException msg))
    ∧ calls s' = calls s ++ CallExecute (cursor s) sql :: rest
    ∧ sql = "CREATE TABLE " +:+ n +:+ "(" +:+ join "," cols +:+
            ",PRIMARY KEY(" +:+ join "," (p :: ps) +:+ "))"
    ∧ contains "PRIMARY KEY" sql = true
    ∧ (rest = [] ∨ rest = [CallCommit]).
Proof.
  intros He%existed_false. rewrite create_table_run. simpl. rewrite He. simpl.
  rewrite execute_commit_run.
  assert (create_sql n cols (Some (p :: ps)) =
          "CREATE TABLE " +:+ n +:+ "(" +:+ join "," cols +:+
            ",PRIMARY KEY(" +:+ join "," (p :: ps) +:+ "))") as Hsql.
  { unfold create_sql, columns_specs. by rewrite !append_assoc. }
  assert (contains "PRIMARY KEY" (create_sql n cols (Some (p :: ps))) = true)
    as Hpk by apply create_sql_primary_key.
  destruct (cursor_execute _ _ (db s)) as [[[]|info] d1].
  - destruct (db_commit d1) as [[[]|info] d2]; simpl;
      eexists _, _, _, [CallCommit]; split_and!; eauto; done.
  - eexists _, _, _, []. split_and!; eauto; done.
Qed.

(** X15.  [create_table] does not look at the column list: with no
    column and no primary key the statement it runs is [CREATE TABLE n()],
    and with no column and a primary key it is
    [CREATE TABLE n(,PRIMARY KEY(..))], the clause still led by its
    comma. *)
Theorem create_table_without_columns n pk force s :
  is_table_existed n s = (Ok false, s) →
  pk ≠ Some [] →
  ∃ rest,
    calls (after (create_table n [] pk force) s) =
      calls s ++
      CallExecute (cursor s)
        (match pk with
         | None => "CREATE TABLE " +:+ n +:+ "()"
         | Some keys =>
             "CREATE TABLE " +:+ n +:+ "(,PRIMARY KEY(" +:+ join "," keys +:+ "))"
         end) :: rest.
Proof.
  intros He%existed_false Hpk. unfold after.
  rewrite create_table_run. simpl. rewrite He. simpl.
  assert (create_sql n [] pk =
          match pk with
          | None => "CREATE TABLE " +:+ n +:+ "()"
          | Some keys =>
              "CREATE TABLE " +:+ n +:+ "(,PRIMARY KEY(" +:+ join "," keys +:+ "))"
          end) as Hsql.
  { unfold create_sql, columns_specs. destruct pk as [keys|]; [|done].
    change (join "," []) with "".
    change ("" +:+ ",PRIMARY KEY(" +:+ join "," keys +:+ ")")
      with (",PRIMARY KEY(" +:+ join "," keys +:+ ")").
    by rewrite !append_assoc. }
  assert (∃ rest, calls (bind (execute (create_sql n [] pk)) (λ _, commit) s).2 =
                  calls s ++ CallExecute (cursor s) (create_sql n [] pk) :: rest)
    as [rest Hrest].
  { rewrite execute_commit_run.
    destruct (cursor_execute _ _ (db s)) as [[[]|info] d1].
    - destruct (db_commit d1) as [r d2]. by exists [CallCommit].
    - by exists []. }
  exists rest. rewrite <- Hsql. by destruct pk as [[|p ps]|].
Qed.


(** X17.  The same for [create_table] on a table that does not exist:
    when it ends on an exception of the driver, the [CREATE TABLE] was
    refused and nothing follows it, or it was accepted and the commit was
    refused. *)
Theorem create_table_driver_failure n cols pk force s info s' :
  is_table_existed n s = (Ok false, s) →
  create_table n cols pk force s = (Raise (BackendError info), s') →
  (calls s' = calls s ++ [CallExecute (cursor s) (create_sql n cols pk)]
   ∧ cursor_execute (cursor s) (create_sql n cols pk) (db s) = (Fail info, db s'))
  ∨ (calls s' =
       calls s ++ [CallExecute (cursor s) (create_sql n cols pk); CallCommit]
     ∧ ∃ d1, cursor_execute (cursor s) (create_sql n cols pk) (db s) = (Done tt, d1)
             ∧ db_commit d1 = (Fail info, db s')).
Proof.
  intros He%existed_false. rewrite create_table_run. simpl. rewrite He. simpl.
  intros Hrun.
  assert (bind (execute (create_sql n cols pk)) (λ _, commit) s =
            (Raise (BackendError info), s')) as Hrun'.
  { by destruct pk as [[|p ps]|]. }
  clear Hrun. rewrite execute_commit_run in Hrun'.
  destruct (cursor_execute _ _ (db s)) as [[[]|info1] d1].
  - destruct (db_commit d1) as [[[]|info2] d2] eqn:Hc; [done|].
    injection Hrun' as <- <-. right. simpl. split; [done|]. by exists d1.
  - injection Hrun' as <- <-. by left.
Qed.

(** ** Construction and the existence check *)

(** X18.  [__init__] makes one call, [cursor()], and fails exactly when
    that call does.  The session it builds has an empty cache, so the
    first [get] of any name goes to [get_table_obj] and returns what it
    returns. *)
Theorem init_opens_one_cursor (d : Conn) (m : Mode) cs objs :
  match init d m cs objs with
  | Ok s =>
      db_cursor d = (Done (cursor s), db s)
      ∧ calls s = cs ++ [CallCursor]
      ∧ table_map s = ∅ ∧ mode s = m ∧ objects s = objs
      ∧ ∀ n, (get n s).1 = of_answer (get_table_obj n (db s) objs).1
  | Raise e => ∃ info d', db_cursor d = (Fail info, d') ∧ e = BackendError info
  end.
Proof.
  unfold init. destruct (db_cursor d) as [[c|info] d'] eqn:Hc; [|eauto].
  simpl. split_and!; try done.
  intros n. rewrite get_run. simpl. rewrite lookup_empty.
  by destruct (get_table_obj n d' objs) as [[h|info] o].
Qed.

(** X19.  [is_table_existed] finds lower-case entries only.  When every
    name that [list_tables] returns has an upper-case letter, no table
    exists for it, not even under a listed name, and [create_table] never
    raises its table-already-exists exception. *)
Theorem is_table_existed_needs_lower_case n cols pk force s :
  Forall (λ t, lower t ≠ t) (list_tables (db s)) →
  is_table_existed n s = (Ok false, s)
  ∧ (create_table n cols pk force s).1 ≠
      Raise (MonSQLException "TABLE ALREADY EXISTS").
Proof.
  intros Hlist.
  assert (bool_decide (lower n ∈ list_tables (db s)) = false) as He.
  { apply bool_decide_eq_false. intros Hin.
    rewrite Forall_forall in Hlist. apply (Hlist _ Hin), lower_idem. }
  split; [by rewrite is_table_existed_run, He|].
  rewrite create_table_run. simpl. rewrite He. simpl.
  assert (∀ sql, (bind (execute sql) (λ _, commit) s).1 ≠
                 Raise (MonSQLException "TABLE ALREADY EXISTS")) as Htail.
  { intros sql. rewrite execute_commit_run.
    destruct (cursor_execute _ _ (db s)) as [[[]|info] d1]; [|done].
    by destruct (db_commit d1) as [[[]|info] d2]. }
  destruct pk as [[|p ps]|]; [done|apply Htail..].
Qed.

End Further.

(** * The further properties on the two backends *)

Lemma other_methods_keep_cache_witness :
  CreateTable "orders" ["id INT"] (Some ["id"]) false ≠ Close
  ∧ (∀ name, CreateTable "orders" ["id INT"] (Some ["id"]) false ≠ Get name)
  ∧ table_map (step Memory.fetched
                 (CreateTable "orders" ["id INT"] (Some ["id"]) false)) =
      table_map Memory.fetched.
Proof.
  assert (CreateTable "orders" ["id INT"] (Some ["id"]) false ≠ Close)
    as H1 by discriminate.
  assert (∀ name, CreateTable "orders" ["id INT"] (Some ["id"]) false ≠ Get name)
    as H2 by (intros name; discriminate).
  split; [exact H1|]. split; [exact H2|].
  exact (proj1 (other_methods_keep_cache _ Memory.fetched H1 H2)).
Defined.

Lemma get_keeps_other_names_witness :
  "users" ≠ "orders"
  ∧ table_map (after (get "orders") Memory.fetched) !! "users" =
      table_map Memory.fetched !! "users".
Proof.
  assert ("users" ≠ "orders") as Hne by discriminate.
  split; [exact Hne|].
  exact (proj1 (get_keeps_other_names "orders" "users" Memory.fetched Hne)).
Defined.

Lemma cache_names_come_from_get_witness :
  is_Some (table_map (run_ops Memory.traffic Memory.session) !! "orders")
  ∧ (is_Some (table_map Memory.session !! "orders")
     ∨ Get "orders" ∈ Memory.traffic).
Proof.
  assert (is_Some (table_map (run_ops Memory.traffic Memory.session) !! "orders"))
    as Hin by (vm_compute; eauto).
  split; [exact Hin|].
  exact (cache_names_come_from_get Memory.traffic Memory.session "orders" Hin).
Defined.

Lemma cache_grows_until_close_witness :
  (Close ∉ Memory.traffic)
  ∧ table_map Memory.fetched ⊆ table_map (run_ops Memory.traffic Memory.fetched).
Proof.
  split; [exact Memory_traffic_no_close|].
  exact (cache_grows_until_close Memory.traffic Memory.fetched
           Memory_traffic_no_close).
Defined.

Lemma get_raises_only_from_hook_witness :
  get "orders" Lost.session =
    (Raise (BackendError "connection lost"), Lost.session)
  ∧ table_map Lost.session !! "orders" = None.
Proof.
  assert (get "orders" Lost.session =
            (Raise (BackendError "connection lost"), Lost.session))
    as Hget by (vm_compute; reflexivity).
  split; [exact Hget|].
  exact (proj1 (proj2 (get_raises_only_from_hook _ _ _ _ Hget))).
Defined.

Lemma close_raises_keeps_cache_witness :
  close Lost.session =
    (Raise (BackendError "connection lost"), after close Lost.session)
  ∧ table_map (after close Lost.session) = table_map Lost.session.
Proof.
  assert (close Lost.session =
            (Raise (BackendError "connection lost"), after close Lost.session))
    as Hclose by (vm_compute; reflexivity).
  split; [exact Hclose|].
  exact (proj1 (proj2 (close_raises_keeps_cache _ _ _ Hclose))).
Defined.

Lemma set_foreign_key_check_uses_new_cursor_witness :
  set_foreign_key_check false Memory.session =
    (Ok tt, after (set_foreign_key_check false) Memory.session)
  ∧ ∃ c d1,
      db_cursor (db Memory.session) = (Done c, d1)
      ∧ cursor_execute c "SET foreign_key_checks = 0;" d1 =
          (Done tt, db (after (set_foreign_key_check false) Memory.session))
      ∧ calls (after (set_foreign_key_check false) Memory.session) =
          [CallCursor] ++ [CallCursor; CallExecute c "SET foreign_key_checks = 0;"]
      ∧ cursor (after (set_foreign_key_check false) Memory.session) = 0
      ∧ table_map (after (set_foreign_key_check false) Memory.session) = ∅.
Proof.
  assert (set_foreign_key_check false Memory.session =
            (Ok tt, after (set_foreign_key_check false) Memory.session))
    as Hrun by (vm_compute; reflexivity).
  split; [exact Hrun|].
  exact (set_foreign_key_check_uses_new_cursor false Memory.session _ Hrun).
Defined.

Lemma create_table_empty_primary_key_after_drop_witness :
  is_table_existed "Users" Memory.session = (Ok true, Memory.session)
  ∧ create_table "Users" ["id INT"] (Some []) true Memory.session =
      (Raise (MonSQLException "PRIMARY KEY MUST AT LEAST CONTAINS ONE COLUMN"),
       after (create_table "Users" ["id INT"] (Some []) true) Memory.session)
  ∧ calls (after (create_table "Users" ["id INT"] (Some []) true) Memory.session) =
      [CallCursor] ++ [CallExecute 0 "DROP TABLE IF EXISTS Users"; CallCommit].
Proof.
  assert (is_table_existed "Users" Memory.session = (Ok true, Memory.session))
    as He by reflexivity.
  assert (create_table "Users" ["id INT"] (Some []) true Memory.session =
            (Raise (MonSQLException "PRIMARY KEY MUST AT LEAST CONTAINS ONE COLUMN"),
             after (create_table "Users" ["id INT"] (Some []) true) Memory.session))
    as Hrun by (vm_compute; reflexivity).
  split; [exact He|]. split; [exact Hrun|].
  exact (proj1 (proj2 (proj2
    (create_table_empty_primary_key_after_drop "Users" ["id INT"] (Some []) true
       Memory.session _ He Hrun)))).
Defined.

Lemma create_table_exceptions_witness :
  create_table "Users" ["id INT"] None false Memory.session =
    (Raise (MonSQLException "TABLE ALREADY EXISTS"), Memory.session)
  ∧ (MonSQLException "TABLE ALREADY EXISTS" = MonSQLException "TABLE ALREADY EXISTS"
     ∨ MonSQLException "TABLE ALREADY EXISTS" =
         MonSQLException "PRIMARY KEY MUST AT LEAST CONTAINS ONE COLUMN"
     ∨ ∃ info, MonSQLException "TABLE ALREADY EXISTS" = BackendError info).
Proof.
  assert (create_table "Users" ["id INT"] None false Memory.session =
            (Raise (MonSQLException "TABLE ALREADY EXISTS"), Memory.session))
    as Hrun by (vm_compute; reflexivity).
  split; [exact Hrun|].
  exact (create_table_exceptions "Users" ["id INT"] None false Memory.session
           _ _ Hrun).
Defined.

Lemma create_table_force_is_for_existing_tables_witness :
  is_table_existed "orders" Memory.session = (Ok false, Memory.session)
  ∧ create_table "orders" ["id INT"] None true Memory.session =
      create_table "orders" ["id INT"] None false Memory.session.
Proof.
  assert (is_table_existed "orders" Memory.session = (Ok false, Memory.session))
    as He by reflexivity.
  split; [exact He|].
  exact (create_table_force_is_for_existing_tables "orders" ["id INT"] None
           Memory.session He).
Defined.

Lemma drop_table_silent_is_for_missing_tables_witness :
  is_table_existed "Users" Memory.session = (Ok true, Memory.session)
  ∧ drop_table "Users" false Memory.session = drop_table "Users" true Memory.session.
Proof.
  assert (is_table_existed "Users" Memory.session = (Ok true, Memory.session))
    as He by reflexivity.
  split; [exact He|].
  exact (drop_table_silent_is_for_missing_tables "Users" Memory.session He).
Defined.

Lemma create_table_with_primary_key_witness :
  is_table_existed "orders" Memory.session = (Ok false, Memory.session)
  ∧ ∃ r s' sql rest,
      create_table "orders" ["id INT"; "total INT"] (Some ["id"; "total"]) false
        Memory.session = (r, s')
      ∧ (∀ msg, r ≠ Raise (MonSQLException msg))
      ∧ calls s' = [CallCursor] ++ CallExecute 0 sql :: rest
      ∧ sql = "CREATE TABLE orders(id INT,total INT,PRIMARY KEY(id,total))"
      ∧ contains "PRIMARY KEY" sql = true
      ∧ (rest = [] ∨ rest = [CallCommit]).
Proof.
  assert (is_table_existed "orders" Memory.session = (Ok false, Memory.session))
    as He by reflexivity.
  split; [exact He|].
  exact (create_table_with_primary_key "orders" ["id INT"; "total INT"] "id"
           ["total"] false Memory.session He).
Defined.

Lemma create_table_without_columns_witness :
  is_table_existed "orders" Memory.session = (Ok false, Memory.session)
  ∧ Some ["id"] ≠ Some []
  ∧ ∃ rest,
      calls (after (create_table "orders" [] (Some ["id"]) false) Memory.session) =
        [CallCursor] ++
        CallExecute 0 "CREATE TABLE orders(,PRIMARY KEY(id))" :: rest.
Proof.
  assert (is_table_existed "orders" Memory.session = (Ok false, Memory.session))
    as He by reflexivity.
  assert (Some ["id"] ≠ Some (@nil string)) as Hpk by discriminate.
  split; [exact He|]. split; [exact Hpk|].
  exact (create_table_without_columns "orders" (Some ["id"]) false
           Memory.session He Hpk).
Defined.


Lemma create_table_driver_failure_witness :
  is_table_existed "orders" Lost.session = (Ok false, Lost.session)
  ∧ create_table "orders" ["id INT"] None false Lost.session =
      (Raise (BackendError "connection lost"),
       after (create_table "orders" ["id INT"] None false) Lost.session)
  ∧ calls (after (create_table "orders" ["id INT"] None false) Lost.session) =
      [CallCursor; CallExecute 0 "CREATE TABLE orders(id INT)"].
Proof.
  assert (is_table_existed "orders" Lost.session = (Ok false, Lost.session))
    as He by reflexivity.
  assert (create_table "orders" ["id INT"] None false Lost.session =
            (Raise (BackendError "connection lost"),
             after (create_table "orders" ["id INT"] None false) Lost.session))
    as Hrun by (vm_compute; reflexivity).
  split; [exact He|]. split; [exact Hrun|].
  destruct (create_table_driver_failure "orders" ["id INT"] None false
              Lost.session _ _ He Hrun)
    as [[Hcalls _]|[_ (d1 & Hexec & _)]].
  - exact Hcalls.
  - discriminate Hexec.
Defined.

Lemma is_table_existed_needs_lower_case_witness :
  Forall (λ t, lower t ≠ t) ["Users"]
  ∧ is_table_existed "Users"
      (mkDatabase (Memory.mkConn 1 ["Users"]) 0 ∅ 0 [CallCursor] ∅) =
      (Ok false, mkDatabase (Memory.mkConn 1 ["Users"]) 0 ∅ 0 [CallCursor] ∅).
Proof.
  assert (Forall (λ t, lower t ≠ t) ["Users"]) as Hlist.
  { constructor; [discriminate|constructor]. }
  split; [exact Hlist|].
  exact (proj1 (is_table_existed_needs_lower_case "Users" [] None false
                  (mkDatabase (Memory.mkConn 1 ["Users"]) 0 ∅ 0 [CallCursor] ∅)
                  Hlist)).
Defined.
